(** * AyuSure drift calibration engine

    A shallow embedding of [AdvancedDriftCalibrationEngine]
    (hardware/calibration/drift_calibration_system.py) and the properties of
    its five operations: drift detection, temperature compensation, Kalman
    filtering, cross validation and predictive maintenance.

    Numbers.  For drift detection, compensation, Kalman filtering and
    cross validation, Python and NumPy floats are read as exact rationals
    ([Q]): rounding and overflow are outside that model.  What IEEE
    arithmetic does at a zero denominator is kept, in [npfloat], for the
    one operation whose denominators can vanish (cross validation).
    [np.sqrt] is an interface ([NpSqrt]) with the one law the engine relies
    on, and an executable instance for evaluation.  Literals written with
    an exponent in the source ([1e-6], [-1.2e-3]) are written out in
    decimal.  Where a property asks for the exact equality of two floats,
    the operation is also given over binary64 ([Binary64]), so that it can
    be evaluated bit for bit.

    The forecast of predictive maintenance turns on the sign of a computed
    slope and on [int] of a quotient, which rounding decides.  It is
    modelled over an interface of its float operations ([FloatArith]), with
    the int64 arithmetic of the index array written out ([Int64]); exact
    rationals and binary64 are its two instances, and both keep the laws
    its properties assume ([FloatLaws]). *)

From Stdlib Require Import QArith Qabs ZArith List String Bool Lia Lqa.
From Stdlib Require PrimFloat Uint63 FloatOps FloatAxioms SpecFloat.
From stdpp Require Import base option list sorting gmap strings.
Import ListNotations.

Open Scope string_scope.
Open Scope Q_scope.

(** ** Python values *)

(** The exceptions the engine can raise. *)
Inductive exn : Type :=
| KeyError (key : string)
| ZeroDivisionError
| OverflowError
| ValueError.

(** A call either returns or raises. *)
Inductive result (A : Type) : Type :=
| Ok (a : A)
| Raise (e : exn).
Arguments Ok {A} a.
Arguments Raise {A} e.

Module Py.

Definition bind {A B} (r : result A) (k : A -> result B) : result B :=
  match r with
  | Ok a => k a
  | Raise e => Raise e
  end.

Definition raises {A} (r : result A) : bool :=
  match r with
  | Ok _ => false
  | Raise _ => true
  end.

(** [a < b] on floats. *)
Definition ltb (a b : Q) : bool := negb (Qle_bool b a).
Definition leb (a b : Q) : bool := Qle_bool a b.

(** [max(a, b)]: the first argument unless the second is greater. *)
Definition max (a b : Q) : Q := if ltb a b then b else a.
(** [min(a, b)]: the first argument unless the second is smaller. *)
Definition min (a b : Q) : Q := if ltb b a then b else a.

(** [min(values)] of a non-empty sequence; [None] for the empty one. *)
Definition min_list (l : list Q) : option Q :=
  match l with
  | [] => None
  | x :: xs => Some (fold_left min xs x)
  end.

(** [int(x)]: truncation toward zero. *)
Definition int (x : Q) : Z := Z.quot (Qnum x) (Zpos (Qden x)).

(** Truthiness of an optional string argument: [None] and the empty
    string are false. *)
Definition truthy (s : option string) : bool :=
  match s with
  | None => false
  | Some EmptyString => false
  | Some (String _ _) => true
  end.

(** [d[k]]: raises [KeyError] on a missing key. *)
Definition getitem {V} (d : gmap string V) (k : string) : result V :=
  match d !! k with
  | Some v => Ok v
  | None => Raise (KeyError k)
  end.

(** [float(n)] for a length or a count. *)
Definition of_nat (n : nat) : Q := inject_Z (Z.of_nat n).

End Py.

(** ** NumPy on one-dimensional arrays *)

(** [np.sqrt]: any function into the non-negative numbers. *)
Class NpSqrt : Type := {
  np_sqrt : Q -> Q;
  np_sqrt_nonneg : forall x : Q, 0 <= np_sqrt x
}.

Module Np.

Fixpoint sum (l : list Q) : Q :=
  match l with
  | [] => 0
  | x :: xs => x + sum xs
  end.

(** [np.mean]; every call site passes a non-empty array. *)
Definition mean (l : list Q) : Q := sum l / Py.of_nat (length l).

(** [np.arange(n)]. *)
Definition arange (n : nat) : list Q := map Py.of_nat (seq 0 n).

(** Elementwise product [x * y]. *)
Definition mul (x y : list Q) : list Q := zip_with Qmult x y.

(** [np.diff]. *)
Fixpoint diff (l : list Q) : list Q :=
  match l with
  | x :: (y :: _) as t => (y - x) :: diff t
  | _ => []
  end.

Definition abs (l : list Q) : list Q := map Qabs l.

(** [np.where(cond)[0]]: the indices at which the condition holds. *)
Fixpoint where_from (i : nat) (cond : Q -> bool) (l : list Q) : list nat :=
  match l with
  | [] => []
  | x :: xs => if cond x then i :: where_from (S i) cond xs
               else where_from (S i) cond xs
  end.
Definition where_ (cond : Q -> bool) (l : list Q) : list nat :=
  where_from 0 cond l.

(** [np.any(cond)]. *)
Definition any (cond : Q -> bool) (l : list Q) : bool := existsb cond l.

(** [np.max] and [np.min] of a non-empty array. *)
Definition amax (l : list Q) : Q :=
  match l with
  | [] => 0
  | x :: xs => fold_left Py.max xs x
  end.
Definition amin (l : list Q) : Q :=
  match l with
  | [] => 0
  | x :: xs => fold_left Py.min xs x
  end.

(** [np.std]: the population standard deviation. *)
Definition var (l : list Q) : Q :=
  let m := mean l in mean (map (fun x => Qabs (x - m) * Qabs (x - m)) l).
Definition std `{NpSqrt} (l : list Q) : Q := np_sqrt (var l).

End Np.

(** ** The reference standard table *)

Record ElectrodeStandard : Type := {
  reference_responses : gmap string Q;
  temp_coefficient : Q;
  aging_rate : Q;
  noise_threshold : Q
}.

Definition responses (ph4 ph7 ph10 : Q) : gmap string Q :=
  <["pH4" := ph4]> (<["pH7" := ph7]> (<["pH10" := ph10]> ∅)).

Definition electrode_standards : gmap string ElectrodeStandard :=
  <["SS" := {| reference_responses := responses 1.85 1.42 0.95;
               temp_coefficient := - 0.0012;
               aging_rate := 0.005;
               noise_threshold := 0.002 |}]>
  (<["Cu" := {| reference_responses := responses 2.15 1.68 1.12;
                temp_coefficient := - 0.0018;
                aging_rate := 0.008;
                noise_threshold := 0.003 |}]>
  (<["Zn" := {| reference_responses := responses 2.45 1.89 1.35;
                temp_coefficient := - 0.0015;
                aging_rate := 0.006;
                noise_threshold := 0.0025 |}]>
  (<["Ag" := {| reference_responses := responses 2.78 2.21 1.58;
                temp_coefficient := - 0.0009;
                aging_rate := 0.004;
                noise_threshold := 0.002 |}]>
  (<["Pt" := {| reference_responses := responses 2.52 2.03 1.41;
                temp_coefficient := - 0.0007;
                aging_rate := 0.003;
                noise_threshold := 0.0015 |}]> ∅)))).

(** [environmental_standards]: the two entries the engine reads. *)
Definition pH_slope_nominal : Q := - 59.16.
Definition pH_temp_coefficient : Q := - 0.198.
Definition pH_drift_threshold : Q := 1.0.
Definition conductivity_temp_coefficient : Q := 0.021.
Definition conductivity_cell_constant : Q := 1.0.
Definition conductivity_drift_threshold : Q := 0.05.

(** ** Statistical primitives *)

(** [_calculate_linear_trend(x, y)]: the least-squares slope, over exact
    rationals and unbounded indices.  Every caller passes [np.arange(n)]
    for [x].  The function as the machine computes it, with int64 indices
    and floats that round, is [Rounded._calculate_linear_trend] below; in
    exact arithmetic the two agree up to 102569 samples, where the int64
    denominator starts to wrap. *)
Definition _calculate_linear_trend (x y : list Q) : Q :=
  let n := length x in
  if (n <? 2)%nat then 0
  else
    let sum_x := Np.sum x in
    let sum_y := Np.sum y in
    let sum_xy := Np.sum (Np.mul x y) in
    let sum_x2 := Np.sum (Np.mul x x) in
    (Py.of_nat n * sum_xy - sum_x * sum_y)
    / (Py.of_nat n * sum_x2 - sum_x * sum_x).

Record CusumStats : Type := {
  cusum_positive : list Q;
  cusum_negative : list Q;
  positive_alarm : bool;
  negative_alarm : bool;
  alarm_triggered : bool;
  max_cusum_pos : Q;
  min_cusum_neg : Q
}.

Definition cusum_k : Q := 0.5.
Definition cusum_h : Q := 4.0.

(** The loop [for i in range(1, len(deviations))]: entry [i] is computed
    from entry [i-1] and deviation [i]; entry 0 stays at zero. *)
Fixpoint cusum_loop (step : Q -> Q -> Q) (prev : Q) (devs : list Q) : list Q :=
  match devs with
  | [] => []
  | d :: ds => let s := step prev d in s :: cusum_loop step s ds
  end.

Definition cusum_array (step : Q -> Q -> Q) (deviations : list Q) : list Q :=
  match deviations with
  | [] => []
  | _ :: ds => 0 :: cusum_loop step 0 ds
  end.

(** [_calculate_cusum(data)] with the default target and deviation. *)
Definition _calculate_cusum `{NpSqrt} (data : list Q) : CusumStats :=
  let head := take (Nat.min 10 (length data)) data in
  let target := Np.mean head in
  let std_dev := Np.std head in
  let deviations :=
    map (fun x => (x - target) / Py.max std_dev 0.000001) data in
  let cusum_pos :=
    cusum_array (fun prev d => Py.max 0 (prev + d - cusum_k)) deviations in
  let cusum_neg :=
    cusum_array (fun prev d => Py.min 0 (prev + d + cusum_k)) deviations in
  let pos_alarm := Np.any (fun s => Py.ltb cusum_h s) cusum_pos in
  let neg_alarm := Np.any (fun s => Py.ltb s (- cusum_h)) cusum_neg in
  {| cusum_positive := cusum_pos;
     cusum_negative := cusum_neg;
     positive_alarm := pos_alarm;
     negative_alarm := neg_alarm;
     alarm_triggered := pos_alarm || neg_alarm;
     max_cusum_pos := Np.amax cusum_pos;
     min_cusum_neg := Np.amin cusum_neg |}.

Record MovingRangeStats : Type := {
  mean_moving_range : Q;
  mr_upper_control_limit : Q;
  mr_lower_control_limit : Q;
  mr_out_of_control_points : list nat;
  mr_out_of_control : bool;
  percent_out_of_control : Q
}.

Definition mr_d2 : Q := 1.128.
Definition mr_d3 : Q := 0.853.
Definition mr_d4 : Q := 1.693.

(** [_calculate_moving_range_stats(moving_ranges)]. *)
Definition _calculate_moving_range_stats (moving_ranges : list Q)
  : MovingRangeStats :=
  let mean_mr := Np.mean moving_ranges in
  let ucl_mr := mr_d4 * mean_mr in
  let lcl_mr := Py.max 0 (mr_d3 * mean_mr) in
  let out_of_control_points :=
    Np.where_ (fun r => Py.ltb ucl_mr r || Py.ltb r lcl_mr) moving_ranges in
  {| mean_moving_range := mean_mr;
     mr_upper_control_limit := ucl_mr;
     mr_lower_control_limit := lcl_mr;
     mr_out_of_control_points := out_of_control_points;
     mr_out_of_control := (0 <? length out_of_control_points)%nat;
     percent_out_of_control :=
       Py.of_nat (length out_of_control_points)
       / Py.of_nat (length moving_ranges) * 100 |}.

Record SpcStats : Type := {
  spc_mean : Q;
  std_deviation : Q;
  spc_upper_control_limit : Q;
  spc_lower_control_limit : Q;
  spc_out_of_control_points : list nat;
  rule2_violation : bool;
  spc_out_of_control : bool
}.

(** The Rule 2 loop of [_statistical_process_control]: a point above the
    centre line extends the run above, every other point extends the run
    below; the loop breaks at the first run of nine. *)
Fixpoint rule2_loop (mean_val : Q) (data : list Q)
    (consecutive_above consecutive_below : nat) : bool :=
  match data with
  | [] => false
  | x :: xs =>
      let '(above, below) :=
        if Py.ltb mean_val x then (S consecutive_above, 0%nat)
        else (0%nat, S consecutive_below) in
      if (9 <=? above)%nat || (9 <=? below)%nat then true
      else rule2_loop mean_val xs above below
  end.

(** [_statistical_process_control(data)]. *)
Definition _statistical_process_control `{NpSqrt} (data : list Q) : SpcStats :=
  let mean_val := Np.mean data in
  let std_val := Np.std data in
  let ucl := mean_val + 3 * std_val in
  let lcl := mean_val - 3 * std_val in
  let out_of_control :=
    Np.where_ (fun x => Py.ltb ucl x || Py.ltb x lcl) data in
  let rule2 := rule2_loop mean_val data 0 0 in
  {| spc_mean := mean_val;
     std_deviation := std_val;
     spc_upper_control_limit := ucl;
     spc_lower_control_limit := lcl;
     spc_out_of_control_points := out_of_control;
     rule2_violation := rule2;
     spc_out_of_control := (0 <? length out_of_control)%nat || rule2 |}.

(** Rule 2 as the specification words it: a point equal to the mean is on
    neither side and resets both runs. *)
Fixpoint rule2_spec (mean_val : Q) (data : list Q)
    (consecutive_above consecutive_below : nat) : bool :=
  match data with
  | [] => false
  | x :: xs =>
      let '(above, below) :=
        if Py.ltb mean_val x then (S consecutive_above, 0%nat)
        else if Py.ltb x mean_val then (0%nat, S consecutive_below)
        else (0%nat, 0%nat) in
      if (9 <=? above)%nat || (9 <=? below)%nat then true
      else rule2_spec mean_val xs above below
  end.

(** ** Drift detection *)

Inductive action : Type :=
| monitor | increase_monitoring | schedule_calibration | immediate_calibration.
Inductive urgency_level : Type := low | medium | high | critical.

Record Recommendation : Type := {
  rec_action : action;
  rec_urgency : urgency_level;
  rec_message : string;
  next_check_hours : Z
}.

(** [_generate_drift_recommendation]. *)
Definition _generate_drift_recommendation
    (drift_detected : bool) (confidence drift_rate : Q) : Recommendation :=
  if negb drift_detected then
    {| rec_action := monitor; rec_urgency := low;
       rec_message :=
         "No significant drift detected. Continue normal monitoring.";
       next_check_hours := 24 |}
  else if Py.ltb confidence 0.6 then
    {| rec_action := increase_monitoring; rec_urgency := medium;
       rec_message :=
         "Possible drift detected. Increase monitoring frequency.";
       next_check_hours := 4 |}
  else if Py.ltb 0.01 (Qabs drift_rate) then
    {| rec_action := immediate_calibration; rec_urgency := high;
       rec_message :=
         "Significant drift detected. Immediate calibration recommended.";
       next_check_hours := 1 |}
  else
    {| rec_action := schedule_calibration; rec_urgency := medium;
       rec_message :=
         "Moderate drift detected. Schedule calibration within 24 hours.";
       next_check_hours := 8 |}.

(** The dictionary [drift_indicators], in insertion order. *)
Record DriftIndicators : Type := {
  linear_trend : bool;
  cusum_alarm : bool;
  range_alarm : bool;
  spc_alarm : bool
}.

Definition indicator_values (d : DriftIndicators) : list bool :=
  [linear_trend d; cusum_alarm d; range_alarm d; spc_alarm d].

(** [sum(values)] over booleans counts the true ones. *)
Definition sum_bools (l : list bool) : nat :=
  length (filter (fun b => b = true) l).

Record DriftAnalysisResult : Type := {
  drift_detected : bool;
  drift_confidence : Q;
  drift_rate_per_hour : Q;
  linear_slope : Q;
  cusum_statistics : CusumStats;
  moving_range_stats : MovingRangeStats;
  spc_statistics : SpcStats;
  individual_indicators : DriftIndicators;
  recommendation : Recommendation
}.

(** What [detect_sensor_drift] returns: the short dictionary
    [{'drift_detected': False, 'reason': 'Insufficient data'}] or the full
    analysis. *)
Inductive DriftOutcome : Type :=
| InsufficientData
| DriftAnalysis (r : DriftAnalysisResult).

(** The threshold selection of [detect_sensor_drift]; the electrode lookup
    is the only step of the method that can raise. *)
Definition select_drift_threshold (sensor_type : string)
    (electrode_type : option string) : result Q :=
  if String.eqb sensor_type "electrode" && Py.truthy electrode_type then
    Py.bind (Py.getitem electrode_standards (default EmptyString electrode_type))
            (fun std => Ok (aging_rate std / 30))
  else if String.eqb sensor_type "pH" then Ok pH_drift_threshold
  else Ok 0.01.

Definition detect_sensor_drift `{NpSqrt} (sensor_readings : list Q)
    (sensor_type : string) (electrode_type : option string)
  : result DriftOutcome :=
  let readings := sensor_readings in
  let n_samples := length readings in
  if (n_samples <? 10)%nat then Ok InsufficientData
  else
    let time_points := Np.arange n_samples in
    let slope := _calculate_linear_trend time_points readings in
    let cusum_stats := _calculate_cusum readings in
    let moving_ranges := Np.abs (Np.diff readings) in
    let mr_stats := _calculate_moving_range_stats moving_ranges in
    let spc_stats := _statistical_process_control readings in
    Py.bind (select_drift_threshold sensor_type electrode_type)
      (fun drift_threshold =>
         let drift_rate :=
           if (1 <? n_samples)%nat then slope * 3600 / Py.of_nat n_samples
           else 0 in
         let drift_indicators :=
           {| linear_trend := Py.ltb drift_threshold (Qabs drift_rate);
              cusum_alarm := alarm_triggered cusum_stats;
              range_alarm := mr_out_of_control mr_stats;
              spc_alarm := spc_out_of_control spc_stats |} in
         let drift_confidence :=
           Py.of_nat (sum_bools (indicator_values drift_indicators))
           / Py.of_nat (length (indicator_values drift_indicators)) in
         let drift_detected := Py.leb 0.4 drift_confidence in
         Ok (DriftAnalysis
               {| drift_detected := drift_detected;
                  drift_confidence := drift_confidence;
                  drift_rate_per_hour := drift_rate;
                  linear_slope := slope;
                  cusum_statistics := cusum_stats;
                  moving_range_stats := mr_stats;
                  spc_statistics := spc_stats;
                  individual_indicators := drift_indicators;
                  recommendation :=
                    _generate_drift_recommendation
                      drift_detected drift_confidence drift_rate |})).

(** ** Temperature compensation *)

Definition reference_temp : Q := 25.0.

(** [apply_temperature_compensation] in exact arithmetic, where the factor
    of the conductivity branch vanishes at one temperature only; the
    operation with every step rounded is [Binary64] below. *)
Definition apply_temperature_compensation (reading temperature : Q)
    (sensor_type : string) (electrode_type : option string) : result Q :=
  let temp_diff := temperature - reference_temp in
  if String.eqb sensor_type "electrode" && Py.truthy electrode_type then
    Py.bind (Py.getitem electrode_standards (default EmptyString electrode_type))
      (fun std =>
         let temp_coeff := temp_coefficient std in
         let compensation := temp_coeff * temp_diff in
         Ok (reading - compensation))
  else if String.eqb sensor_type "pH" then
    let nernst_slope_25 := - 59.16 in
    let nernst_slope_t := nernst_slope_25 * (temperature + 273.15) / 298.15 in
    let ph_at_25 := (reading - 2.0) / (nernst_slope_25 / 1000) in
    let compensated_voltage := 2.0 + ph_at_25 * (nernst_slope_t / 1000) in
    Ok compensated_voltage
  else if String.eqb sensor_type "conductivity" then
    let temp_coeff := conductivity_temp_coefficient in
    let compensation_factor := 1 + temp_coeff * temp_diff in
    if Qeq_bool compensation_factor 0 then Raise ZeroDivisionError
    else Ok (reading / compensation_factor)
  else
    let compensation := - 0.001 * temp_diff in
    Ok (reading - compensation).

(** ** Kalman filtering *)

(** The process and measurement noise selected by the sensor type. *)
Definition kalman_noise (sensor_type : string) : Q * Q :=
  if String.eqb sensor_type "electrode" then (0.000001, 0.0001)
  else if String.eqb sensor_type "pH" then (0.00001, 0.001)
  else (0.00001, 0.001).

(** The loop state: the two scalars and the output array. *)
Record KalmanState : Type := {
  x_est : Q;
  p_est : Q;
  filtered : list Q
}.

(** One iteration of [for i in range(n)]. *)
Definition kalman_iteration (process_noise measurement_noise : Q)
    (measurements : list Q) (st : KalmanState) (i : nat) : KalmanState :=
  let x_pred := x_est st in
  let p_pred := p_est st + process_noise in
  let innovation := default 0 (measurements !! i) - x_pred in
  let kalman_gain := p_pred / (p_pred + measurement_noise) in
  let x_new := x_pred + kalman_gain * innovation in
  let p_new := (1 - kalman_gain) * p_pred in
  {| x_est := x_new; p_est := p_new;
     filtered := <[i := x_new]> (filtered st) |}.

Definition kalman_filter_enhancement (measurements : list Q)
    (sensor_type : string) : list Q :=
  let n := length measurements in
  if (n <? 3)%nat then measurements
  else
    let '(process_noise, measurement_noise) := kalman_noise sensor_type in
    filtered
      (fold_left (kalman_iteration process_noise measurement_noise measurements)
         (seq 0 n)
         {| x_est := default 0 (measurements !! 0%nat);
            p_est := 1.0;
            filtered := replicate n 0 |}).

(** The recursion of the specification: predict, update, emit the estimate,
    over a list of observations. *)
Fixpoint kalman_running (process_noise measurement_noise : Q)
    (estimate covariance : Q) (observations : list Q) : list Q :=
  match observations with
  | [] => []
  | z :: zs =>
      let covariance := covariance + process_noise in
      let gain := covariance / (covariance + measurement_noise) in
      let estimate := estimate + gain * (z - estimate) in
      let covariance := (1 - gain) * covariance in
      estimate :: kalman_running process_noise measurement_noise
                    estimate covariance zs
  end.

(** The filter as the specification words it: the first sample is only the
    initial estimate, and the steps run over the subsequent samples. *)
Definition kalman_subsequent_only (series : list Q) (sensor_type : string)
  : list Q :=
  let '(process_noise, measurement_noise) := kalman_noise sensor_type in
  match series with
  | [] => []
  | z0 :: rest =>
      z0 :: kalman_running process_noise measurement_noise z0 1.0 rest
  end.

(** The same recursion run over every sample, the first included. *)
Definition kalman_every_sample (series : list Q) (sensor_type : string)
  : list Q :=
  let '(process_noise, measurement_noise) := kalman_noise sensor_type in
  match series with
  | [] => []
  | z0 :: _ => kalman_running process_noise measurement_noise z0 1.0 series
  end.

(** ** NumPy floats at a zero denominator *)

(** A float64 without rounding: a rational, an infinity, or NaN.  Signed
    zeros are not kept; a zero denominator counts as [+0]. *)
Inductive npfloat : Type :=
| Fin (q : Q)
| PInf
| NInf
| NaN.

Module F.

Definition is_finite (x : npfloat) : bool :=
  match x with Fin _ => true | _ => false end.

(** The infinity with the sign of [q]; NaN at zero. *)
Definition signed_inf (q : Q) : npfloat :=
  if Qeq_bool q 0 then NaN else if Py.ltb 0 q then PInf else NInf.

Definition neg (x : npfloat) : npfloat :=
  match x with
  | Fin q => Fin (- q)
  | PInf => NInf
  | NInf => PInf
  | NaN => NaN
  end.

Definition add (x y : npfloat) : npfloat :=
  match x, y with
  | NaN, _ | _, NaN => NaN
  | Fin a, Fin b => Fin (a + b)
  | PInf, NInf | NInf, PInf => NaN
  | PInf, _ | _, PInf => PInf
  | NInf, _ | _, NInf => NInf
  end.

Definition sub (x y : npfloat) : npfloat := add x (neg y).

Definition mul (x y : npfloat) : npfloat :=
  match x, y with
  | NaN, _ | _, NaN => NaN
  | Fin a, Fin b => Fin (a * b)
  | Fin a, PInf | PInf, Fin a => signed_inf a
  | Fin a, NInf | NInf, Fin a => signed_inf (- a)
  | PInf, PInf | NInf, NInf => PInf
  | PInf, NInf | NInf, PInf => NInf
  end.

Definition div (x y : npfloat) : npfloat :=
  match x, y with
  | NaN, _ | _, NaN => NaN
  | Fin a, Fin b => if Qeq_bool b 0 then signed_inf a else Fin (a / b)
  | Fin _, _ => Fin 0
  | PInf, Fin b => if Py.ltb b 0 then NInf else PInf
  | NInf, Fin b => if Py.ltb b 0 then PInf else NInf
  | _, _ => NaN
  end.

Definition abs (x : npfloat) : npfloat :=
  match x with
  | Fin q => Fin (Qabs q)
  | PInf | NInf => PInf
  | NaN => NaN
  end.

(** [x < y]: false as soon as one side is NaN. *)
Definition ltb (x y : npfloat) : bool :=
  match x, y with
  | NaN, _ | _, NaN => false
  | Fin a, Fin b => Py.ltb a b
  | NInf, NInf | PInf, _ | _, NInf => false
  | _, _ => true
  end.

Definition leb (x y : npfloat) : bool :=
  match x, y with
  | NaN, _ | _, NaN => false
  | Fin a, Fin b => Py.leb a b
  | NInf, _ | _, PInf => true
  | _, _ => false
  end.

(** Python's [max(x, y)]: [x] unless [y > x]; a NaN second argument
    never wins. *)
Definition max (x y : npfloat) : npfloat := if ltb x y then y else x.

(** [np.clip(x, lo, hi)] with finite bounds: NaN stays NaN. *)
Definition clip (x : npfloat) (lo hi : Q) : npfloat :=
  match x with
  | NaN => NaN
  | PInf => Fin hi
  | NInf => Fin lo
  | Fin q => Fin (Py.min (Py.max q lo) hi)
  end.

Fixpoint sum (l : list npfloat) : npfloat :=
  match l with
  | [] => Fin 0
  | x :: xs => add x (sum xs)
  end.

Definition mean (l : list npfloat) : npfloat :=
  div (sum l) (Fin (Py.of_nat (length l))).

End F.

(** ** Cross validation *)

Inductive validation_status : Type :=
| insufficient_data | insufficient_reference_data
| excellent_match | good_match | acceptable_match | poor_match | no_match.

Record ValidationMetrics : Type := {
  correlation : npfloat;
  normalized_rmse : npfloat;
  mean_relative_error : npfloat
}.

Record ElectrodeComparison : Type := {
  expected : list Q;
  actual : list Q;
  relative_errors : list npfloat
}.

Record ValidationResult : Type := {
  validation_score : npfloat;
  status : validation_status;
  herb_name : option string;
  metrics : option ValidationMetrics;
  electrode_comparison : option ElectrodeComparison
}.

(** The two short dictionaries [{'validation_score': 0, 'status': ...}]. *)
Definition validation_sentinel (s : validation_status) : ValidationResult :=
  {| validation_score := Fin 0; status := s; herb_name := None;
     metrics := None; electrode_comparison := None |}.

Definition electrodes : list string := ["SS"; "Cu"; "Zn"; "Ag"; "Pt"].

(** The loop that fills [expected_values] and [actual_values]: an electrode
    counts when the reference profile lists it; its reading defaults to 0. *)
Fixpoint collect_electrodes
    (electrode_response current_readings : gmap string Q)
    (names : list string) : list Q * list Q :=
  match names with
  | [] => ([], [])
  | electrode :: rest =>
      let '(expected_values, actual_values) :=
        collect_electrodes electrode_response current_readings rest in
      match electrode_response !! electrode with
      | Some v =>
          (v :: expected_values,
           default 0 (current_readings !! (electrode +:+ "_voltage"))
             :: actual_values)
      | None => (expected_values, actual_values)
      end
  end.

(** [np.corrcoef(x, y)[0, 1]] as NumPy computes it: the covariance matrix
    with [N - 1] normalisation, divided by the two standard deviations in
    turn, then clipped to [[-1, 1]]. *)
Definition np_cov (x y : list Q) : Q :=
  let mx := Np.mean x in
  let my := Np.mean y in
  Np.sum (zip_with (fun a b => (a - mx) * (b - my)) x y)
  * (1 / Py.of_nat (length x - 1)).

Definition np_corrcoef `{NpSqrt} (x y : list Q) : npfloat :=
  let c01 := Fin (np_cov x y) in
  let stddev0 := Fin (np_sqrt (np_cov x x)) in
  let stddev1 := Fin (np_sqrt (np_cov y y)) in
  F.clip (F.div (F.div c01 stddev0) stddev1) (- 1) 1.

Definition score_status (composite_score : npfloat) : validation_status :=
  if F.leb (Fin 80) composite_score then excellent_match
  else if F.leb (Fin 60) composite_score then good_match
  else if F.leb (Fin 40) composite_score then acceptable_match
  else if F.leb (Fin 20) composite_score then poor_match
  else no_match.

Definition cross_validation_check `{NpSqrt}
    (current_readings : gmap string Q)
    (reference_profile : gmap string (gmap string Q))
    (herb : string) : ValidationResult :=
  if bool_decide (reference_profile = ∅) || bool_decide (current_readings = ∅)
  then validation_sentinel insufficient_data
  else
    let electrode_response :=
      default ∅ (reference_profile !! "electrode_response") in
    let '(expected_values, actual_values) :=
      collect_electrodes electrode_response current_readings electrodes in
    if (length expected_values <? 3)%nat
    then validation_sentinel insufficient_reference_data
    else
      let correlation := np_corrcoef expected_values actual_values in
      let rmse :=
        np_sqrt (Np.mean (zip_with (fun e a => (e - a) * (e - a))
                            expected_values actual_values)) in
      let normalized_rmse :=
        F.div (Fin rmse)
              (Fin (Np.amax expected_values - Np.amin expected_values)) in
      let relative_errors :=
        zip_with (fun a e => F.mul (F.abs (F.div (Fin (a - e)) (Fin e)))
                                   (Fin 100))
                 actual_values expected_values in
      let mean_relative_error := F.mean relative_errors in
      let correlation_score := F.mul (F.max (Fin 0) correlation) (Fin 30) in
      let rmse_score :=
        F.mul (F.max (Fin 0) (F.sub (Fin 1) normalized_rmse)) (Fin 30) in
      let error_score :=
        F.mul (F.max (Fin 0)
                 (F.sub (Fin 1) (F.div mean_relative_error (Fin 100))))
              (Fin 40) in
      let composite_score :=
        F.add (F.add correlation_score rmse_score) error_score in
      {| validation_score := composite_score;
         status := score_status composite_score;
         herb_name := Some herb;
         metrics := Some {| correlation := correlation;
                            normalized_rmse := normalized_rmse;
                            mean_relative_error := mean_relative_error |};
         electrode_comparison :=
           Some {| expected := expected_values;
                   actual := actual_values;
                   relative_errors := relative_errors |} |}.

(** ** Machine integers *)

(** [np.int64].  The index array of the least-squares fit,
    [np.arange(n)] or [np.array(range(n))], is an int64 array, and what is
    computed from it alone ([sum_x], [sum_x2], the denominator of the
    slope) is int64 arithmetic, which wraps around at 64 bits. *)
Module Int64.

Definition wrap (z : Z) : Z := ((z + 2 ^ 63) mod 2 ^ 64 - 2 ^ 63)%Z.
Definition add (a b : Z) : Z := wrap (a + b).
Definition sub (a b : Z) : Z := wrap (a - b).
Definition mul (a b : Z) : Z := wrap (a * b).

(** [np.sum] of an int64 array. *)
Definition sum (l : list Z) : Z := fold_left add l 0%Z.

(** [np.arange(n)], and [np.array(list(range(n)))]. *)
Definition arange (n : nat) : list Z := map Z.of_nat (seq 0 n).

End Int64.

(** ** Floats behind an interface *)

(** The forecast compares computed floats with constants and truncates a
    quotient, so what it returns depends on how every operation rounds.
    Its arithmetic is therefore an interface, of which exact rational
    arithmetic and IEEE binary64 are two instances: a property proved for
    every instance holds of the engine as it runs.  [np.sum] is part of the
    interface, the order of its additions being NumPy's own; so is [int],
    which raises on an infinite or undefined float. *)
Class FloatArith : Type := {
  float : Type;
  float_of_int : Z -> float;
  float_literal : Q -> float;
  float_sub : float -> float -> float;
  float_mul : float -> float -> float;
  float_div : float -> float -> float;
  float_lt : float -> float -> bool;
  np_sum_floats : list float -> float;
  int_of_float : float -> result Z
}.

(** What the properties of the forecast assume of the arithmetic: [<] is
    asymmetric, and [int] of a float above 1 is at least 1. *)
Class FloatLaws `{FloatArith} : Prop := {
  float_lt_asym :
    forall a b : float, float_lt a b = true -> float_lt b a = false;
  int_above_one :
    forall (x : float) (z : Z),
      float_lt (float_of_int 1) x = true -> int_of_float x = Ok z ->
      (1 <= z)%Z
}.

(** [max(a, b)] on two floats: the first argument unless the second is
    greater. *)
Definition float_max `{FloatArith} (a b : float) : float :=
  if float_lt a b then b else a.

(** A Python number that is an int or a float: [max(1, days)] returns the
    int [1] or the float [days], and the fallback [90] is an int. *)
Inductive pynum `{FloatArith} : Type :=
| PyInt (z : Z)
| PyFloat (x : float).

Module PyNum.

(** [a < b].  Python compares an int with a float exactly; the ints that
    meet a float here (1, 7, 30, 90) convert exactly. *)
Definition ltb `{FloatArith} (a b : pynum) : bool :=
  match a, b with
  | PyInt a, PyInt b => (a <? b)%Z
  | PyInt a, PyFloat b => float_lt (float_of_int a) b
  | PyFloat a, PyInt b => float_lt a (float_of_int b)
  | PyFloat a, PyFloat b => float_lt a b
  end.

(** [max(1, x)]: the int [1] unless the float is greater. *)
Definition max_one `{FloatArith} (x : float) : pynum :=
  if float_lt (float_of_int 1) x then PyFloat x else PyInt 1.

(** [min(a, b)]: the first argument unless the second is smaller. *)
Definition min `{FloatArith} (a b : pynum) : pynum :=
  if ltb b a then b else a.

(** [min(values)] of a non-empty sequence; [None] for the empty one. *)
Definition min_list `{FloatArith} (l : list pynum) : option pynum :=
  match l with
  | [] => None
  | x :: xs => Some (fold_left min xs x)
  end.

(** [int(a)]. *)
Definition int `{FloatArith} (a : pynum) : result Z :=
  match a with
  | PyInt z => Ok z
  | PyFloat x => int_of_float x
  end.

End PyNum.

(** ** The least-squares slope as the machine computes it *)

Module Rounded.

(** [_calculate_linear_trend(x, y)] on an int64 index array [x] and a
    float array [y]: [sum_x], [sum_x2] and the denominator are int64,
    [x * y] converts each index, and the int operands of the float
    products and of the division are converted.  The early return is the
    int [0], which every use converts. *)
Definition _calculate_linear_trend `{FloatArith}
    (x : list Z) (y : list float) : float :=
  let n := length x in
  if (n <? 2)%nat then float_of_int 0
  else
    let sum_x := Int64.sum x in
    let sum_y := np_sum_floats y in
    let sum_xy :=
      np_sum_floats (zip_with (fun a b => float_mul (float_of_int a) b) x y) in
    let sum_x2 := Int64.sum (zip_with Int64.mul x x) in
    float_div
      (float_sub (float_mul (float_of_int (Z.of_nat n)) sum_xy)
                 (float_mul (float_of_int sum_x) sum_y))
      (float_of_int
         (Int64.sub (Int64.mul (Z.of_nat n) sum_x2) (Int64.mul sum_x sum_x))).

End Rounded.

(** ** Predictive maintenance *)

(** One entry of [sensor_history], a dictionary: the timestamp is read
    with [entry['timestamp']], which raises when the key is missing, the
    two rates with [entry.get(..., 0)].  The rates are floats; the default
    is the int [0], which [np.array] converts with them. *)
Record HistoryEntry `{FloatArith} : Type := {
  timestamp : option string;
  drift_rate : option float;
  noise_level : option float
}.

(** The completed analysis; its message, a rendering of the number of days,
    is left out. *)
Record MaintenancePrediction `{FloatArith} : Type := {
  next_maintenance_days : Z;
  urgency : urgency_level;
  current_performance : float * float;
  performance_trends : float * float
}.

(** [{'status': 'insufficient_data'}] or the completed analysis. *)
Inductive MaintenanceOutcome `{FloatArith} : Type :=
| MaintenanceInsufficientData
| AnalysisComplete (p : MaintenancePrediction).

(** [[entry['timestamp'] for entry in sensor_history]]. *)
Fixpoint read_timestamps `{FloatArith} (sensor_history : list HistoryEntry)
  : result (list string) :=
  match sensor_history with
  | [] => Ok []
  | entry :: rest =>
      match timestamp entry with
      | Some t => Py.bind (read_timestamps rest) (fun ts => Ok (t :: ts))
      | None => Raise (KeyError "timestamp")
      end
  end.

(** One metric's entry of [maintenance_predictions], when it applies. *)
Definition days_to_limit `{FloatArith} (trend current threshold : float)
  : list pynum :=
  if float_lt (float_of_int 0) trend && float_lt current threshold
  then [PyNum.max_one
          (float_div (float_sub threshold current)
                     (float_max trend (float_literal 0.0000000001)))]
  else [].

(** The value of the local [next_maintenance_days], before [int]. *)
Definition maintenance_days `{FloatArith} (predictions : list pynum) : pynum :=
  match PyNum.min_list predictions with
  | Some d => d
  | None => PyInt 90
  end.

Definition maintenance_urgency `{FloatArith} (days : pynum) : urgency_level :=
  if PyNum.ltb days (PyInt 7) then critical
  else if PyNum.ltb days (PyInt 30) then high
  else medium.

(** [int(next_maintenance_days)] is first evaluated where the message is
    formatted, on the high and medium branches, and then for the result:
    the call raises what [int] raises. *)
Definition predictive_maintenance_analysis `{FloatArith} {U : Type}
    (sensor_history : list HistoryEntry) (usage_data : U)
  : result MaintenanceOutcome :=
  if (length sensor_history <? 20)%nat then Ok MaintenanceInsufficientData
  else
    Py.bind (read_timestamps sensor_history) (fun timestamps =>
    let drift_rates :=
      map (fun e => default (float_of_int 0) (drift_rate e)) sensor_history in
    let noise_levels :=
      map (fun e => default (float_of_int 0) (noise_level e)) sensor_history in
    let n := length drift_rates in
    let time_indices := Int64.arange n in
    let drift_trend :=
      Rounded._calculate_linear_trend time_indices drift_rates in
    let noise_trend :=
      Rounded._calculate_linear_trend time_indices noise_levels in
    let current_drift := List.last drift_rates (float_of_int 0) in
    let current_noise := List.last noise_levels (float_of_int 0) in
    let drift_threshold := float_literal 0.05 in
    let noise_threshold := float_literal 0.01 in
    let maintenance_predictions :=
      (days_to_limit drift_trend current_drift drift_threshold
       ++ days_to_limit noise_trend current_noise noise_threshold)%list in
    let days := maintenance_days maintenance_predictions in
    Py.bind (PyNum.int days) (fun whole_days =>
    Ok (AnalysisComplete
          {| next_maintenance_days := whole_days;
             urgency := maintenance_urgency days;
             current_performance := (current_drift, current_noise);
             performance_trends := (drift_trend, noise_trend) |}))).

(** Exact arithmetic: rationals, nothing rounds and [int] never fails. *)
Definition exact_arithmetic : FloatArith :=
  {| float := Q;
     float_of_int := inject_Z;
     float_literal := fun q => q;
     float_sub := Qminus;
     float_mul := Qmult;
     float_div := Qdiv;
     float_lt := Py.ltb;
     np_sum_floats := Np.sum;
     int_of_float := fun x => Ok (Py.int x) |}.

(** ** Temperature compensation in binary64 *)

Module Binary64.

(** The float of an integer below 2^53 in magnitude. *)
Definition of_Z (z : Z) : PrimFloat.float :=
  if (z <? 0)%Z then PrimFloat.opp (PrimFloat.of_uint63 (Uint63.of_Z (- z)))
  else PrimFloat.of_uint63 (Uint63.of_Z z).

(** A decimal literal: the double nearest to the rational it writes. *)
Definition literal (q : Q) : PrimFloat.float :=
  PrimFloat.div (of_Z (Qnum q)) (of_Z (Zpos (Qden q))).

(** [apply_temperature_compensation] with every operation rounded as
    IEEE 754 binary64 rounds it. *)
Definition apply_temperature_compensation
    (reading temperature : PrimFloat.float)
    (sensor_type : string) (electrode_type : option string)
  : result PrimFloat.float :=
  let reference_temp := literal 25.0 in
  let temp_diff := PrimFloat.sub temperature reference_temp in
  if String.eqb sensor_type "electrode" && Py.truthy electrode_type then
    Py.bind (Py.getitem electrode_standards (default EmptyString electrode_type))
      (fun std =>
         let temp_coeff := literal (temp_coefficient std) in
         let compensation := PrimFloat.mul temp_coeff temp_diff in
         Ok (PrimFloat.sub reading compensation))
  else if String.eqb sensor_type "pH" then
    let nernst_slope_25 := literal (- 59.16) in
    let nernst_slope_t :=
      PrimFloat.div
        (PrimFloat.mul nernst_slope_25
           (PrimFloat.add temperature (literal 273.15)))
        (literal 298.15) in
    let ph_at_25 :=
      PrimFloat.div (PrimFloat.sub reading (literal 2.0))
                    (PrimFloat.div nernst_slope_25 (literal 1000)) in
    let compensated_voltage :=
      PrimFloat.add (literal 2.0)
        (PrimFloat.mul ph_at_25 (PrimFloat.div nernst_slope_t (literal 1000)))
    in
    Ok compensated_voltage
  else if String.eqb sensor_type "conductivity" then
    let temp_coeff := literal conductivity_temp_coefficient in
    let compensation_factor :=
      PrimFloat.add (literal 1) (PrimFloat.mul temp_coeff temp_diff) in
    if PrimFloat.eqb compensation_factor (literal 0)
    then Raise ZeroDivisionError
    else Ok (PrimFloat.div reading compensation_factor)
  else
    let compensation := PrimFloat.mul (literal (- 0.001)) temp_diff in
    Ok (PrimFloat.sub reading compensation).

End Binary64.

(** ** The arithmetic of the forecast in binary64 *)

Module Double.

Definition add8 (r a : list PrimFloat.float) : list PrimFloat.float :=
  zip_with PrimFloat.add r a.

(** The unrolled loop of NumPy's pairwise summation: eight running sums,
    each taking every eighth element. *)
Fixpoint add_blocks (blocks : nat) (r rest : list PrimFloat.float)
  : list PrimFloat.float * list PrimFloat.float :=
  match blocks with
  | O => (r, rest)
  | S k => add_blocks k (add8 r (take 8 rest)) (drop 8 rest)
  end.

Definition sum_loop (a : list PrimFloat.float) (res : PrimFloat.float)
  : PrimFloat.float :=
  fold_left PrimFloat.add a res.

(** A block of 8 to 128 elements: the eight sums are added as a tree and
    the elements past the last multiple of eight one by one. *)
Definition sum_block (a : list PrimFloat.float) : PrimFloat.float :=
  match add_blocks (length a / 8 - 1) (take 8 a) (drop 8 a) with
  | ([r0; r1; r2; r3; r4; r5; r6; r7], rest) =>
      sum_loop rest
        (PrimFloat.add
           (PrimFloat.add (PrimFloat.add r0 r1) (PrimFloat.add r2 r3))
           (PrimFloat.add (PrimFloat.add r4 r5) (PrimFloat.add r6 r7)))
  | _ => sum_loop a PrimFloat.zero
  end.

(** [np.sum] of a float64 array, up to the sign of a zero sum: fewer than
    8 elements are added in order, up to 128 as a block, more are split
    in two at a multiple of eight.  [depth] bounds the splits; the length
    is more than enough. *)
Fixpoint pairwise_sum (depth : nat) (a : list PrimFloat.float)
  : PrimFloat.float :=
  let n := length a in
  if (n <? 8)%nat then sum_loop a PrimFloat.zero
  else if (n <=? 128)%nat then sum_block a
  else
    match depth with
    | O => sum_loop a PrimFloat.zero
    | S d =>
        let n2 := (n / 2 - (n / 2) mod 8)%nat in
        PrimFloat.add (pairwise_sum d (take n2 a)) (pairwise_sum d (drop n2 a))
    end.

Definition np_sum (a : list PrimFloat.float) : PrimFloat.float :=
  pairwise_sum (length a) a.

(** The double nearest to an int64. *)
Definition of_int64 (z : Z) : PrimFloat.float :=
  if (z =? - 2 ^ 63)%Z
  then PrimFloat.opp (PrimFloat.mul (Binary64.of_Z (2 ^ 62)) (Binary64.of_Z 2))
  else Binary64.of_Z z.

(** [int(x)]: truncation toward zero; [OverflowError] on an infinity and
    [ValueError] on NaN. *)
Definition int (x : PrimFloat.float) : result Z :=
  match FloatOps.Prim2SF x with
  | SpecFloat.S754_zero _ => Ok 0%Z
  | SpecFloat.S754_infinity _ => Raise OverflowError
  | SpecFloat.S754_nan => Raise ValueError
  | SpecFloat.S754_finite s m e =>
      let magnitude :=
        if (0 <=? e)%Z then (Z.pos m * 2 ^ e)%Z else (Z.pos m / 2 ^ (- e))%Z in
      Ok (if s then (- magnitude)%Z else magnitude)
  end.

End Double.

(** IEEE binary64, as Python and NumPy compute on the usual platforms. *)
Definition binary64 : FloatArith :=
  {| float := PrimFloat.float;
     float_of_int := Double.of_int64;
     float_literal := Binary64.literal;
     float_sub := PrimFloat.sub;
     float_mul := PrimFloat.mul;
     float_div := PrimFloat.div;
     float_lt := PrimFloat.ltb;
     np_sum_floats := Double.np_sum;
     int_of_float := Double.int |}.

(** ** An executable square root *)

(** The square root of a rational to 52 fractional bits, rounded down;
    exact on squares of rationals. *)
Definition sqrt_down (x : Q) : Q :=
  if Qle_bool x 0 then 0
  else Z.sqrt (Qnum x * Zpos (Qden x) * 4 ^ 52) # (Qden x * 2 ^ 52).

(** [sqrt_down] as an instance of the interface. *)
Definition sqrt_down_instance : NpSqrt.
Proof.
  refine {| np_sqrt := sqrt_down |}.
  intros x. unfold sqrt_down. destruct (Qle_bool x 0); [lra|].
  unfold Qle; simpl.
  pose proof (Z.sqrt_nonneg (Qnum x * Z.pos (Qden x) * 4 ^ 52)). lia.
Defined.

(** * The vocabulary of the properties *)

(** ** Drift detection *)

(** The number of true indicators, as the detector counts them. *)
Definition true_indicators (r : DriftAnalysisResult) : nat :=
  sum_bools (indicator_values (individual_indicators r)).

(** A sensor type that names none of the engine's branches. *)
Definition other_sensor (sensor_type : string) : Prop :=
  sensor_type <> "electrode" /\ sensor_type <> "pH"
  /\ sensor_type <> "conductivity".

(** ** Floats that stay on one side *)

(** Not below zero: a non-negative rational, [+inf] or NaN. *)
Definition nonneg_or_nan (x : npfloat) : Prop :=
  match x with
  | Fin q => 0 <= q
  | PInf | NaN => True
  | NInf => False
  end.

(** Not above one: a rational at most 1, [-inf] or NaN. *)
Definition at_most_one_or_nan (x : npfloat) : Prop :=
  match x with
  | Fin q => q <= 1
  | NInf | NaN => True
  | PInf => False
  end.

(** ** Cross validation *)

(** The result is one of the two short dictionaries. *)
Definition is_sentinel (r : ValidationResult) : bool :=
  match status r with
  | insufficient_data | insufficient_reference_data => true
  | _ => false
  end.

(** The electrode response table of a profile, empty when it has none. *)
Definition response_of (reference_profile : gmap string (gmap string Q))
  : gmap string Q :=
  default ∅ (reference_profile !! "electrode_response").

(** The electrodes, of the five, that the reference profile lists. *)
Definition listed_electrodes (reference_profile : gmap string (gmap string Q))
  : list string :=
  filter (fun e => is_Some (response_of reference_profile !! e)) electrodes.

(** The voltage read for an electrode: 0 when the reading is missing. *)
Definition reading_or_zero (current_readings : gmap string Q) (e : string) : Q :=
  default 0 (current_readings !! (e +:+ "_voltage")).

(** The electrodes, of those listed, whose voltage is present. *)
Definition matched_electrodes (current_readings : gmap string Q)
    (reference_profile : gmap string (gmap string Q)) : list string :=
  filter (fun e => is_Some (current_readings !! (e +:+ "_voltage")))
         (listed_electrodes reference_profile).

(** A profile that lists three electrodes, and a reading set with the
    voltage of one of them. *)
Definition three_electrode_profile : gmap string (gmap string Q) :=
  {[ "electrode_response" := <["SS" := 1]> (<["Cu" := 2]> (<["Zn" := 3]> ∅)) ]}.
Definition one_voltage_readings : gmap string Q := {[ "SS_voltage" := 1 ]}.

(** The status of a finite score, by the thresholds 80, 60, 40 and 20. *)
Definition status_of_score (q : Q) : validation_status :=
  if Qle_bool 80 q then excellent_match
  else if Qle_bool 60 q then good_match
  else if Qle_bool 40 q then acceptable_match
  else if Qle_bool 20 q then poor_match
  else no_match.

(** A complete reading set for [three_electrode_profile]. *)
Definition three_voltage_readings : gmap string Q :=
  <["SS_voltage" := 1.1]> (<["Cu_voltage" := 1.9]> (<["Zn_voltage" := 3.2]> ∅)).

(** A profile whose three expected values coincide, with matching readings,
    and a profile with an expected value of zero. *)
Definition flat_profile : gmap string (gmap string Q) :=
  {[ "electrode_response" := <["SS" := 1]> (<["Cu" := 1]> (<["Zn" := 1]> ∅)) ]}.
Definition flat_readings : gmap string Q :=
  <["SS_voltage" := 1]> (<["Cu_voltage" := 1]> (<["Zn_voltage" := 1]> ∅)).
Definition zero_profile : gmap string (gmap string Q) :=
  {[ "electrode_response" := <["SS" := 0]> (<["Cu" := 1]> (<["Zn" := 2]> ∅)) ]}.

(** ** Least squares *)

(** The weighted sum [sum(x * y)] over the index array. *)
Definition index_sum (y : list Q) : Q :=
  Np.sum (Np.mul (Np.arange (length y)) y).

(** ** Predictive maintenance *)

(** Every entry of the history carries a timestamp. *)
Definition has_timestamps `{FloatArith} (history : list HistoryEntry) : Prop :=
  Forall (fun e => is_Some (timestamp e)) history.

(** The two series of a history, missing rates read as 0. *)
Definition drift_series `{FloatArith} (history : list HistoryEntry)
  : list float :=
  map (fun e => default (float_of_int 0) (drift_rate e)) history.
Definition noise_series `{FloatArith} (history : list HistoryEntry)
  : list float :=
  map (fun e => default (float_of_int 0) (noise_level e)) history.

(** The day estimate of one metric, in the specification's words: it
    applies when the trend is positive and the current value is below the
    threshold, and is then (threshold - current) / trend, the denominator
    guarded at 1e-10 and the result floored at one day. *)
Definition metric_estimate `{FloatArith}
    (values : list float) (threshold : float) : option pynum :=
  let trend :=
    Rounded._calculate_linear_trend (Int64.arange (length values)) values in
  let current := List.last values (float_of_int 0) in
  if float_lt (float_of_int 0) trend && float_lt current threshold
  then Some (PyNum.max_one
               (float_div (float_sub threshold current)
                          (float_max trend (float_literal 0.0000000001))))
  else None.

(** The applicable estimates: drift first, then noise. *)
Definition applicable_estimates `{FloatArith} (history : list HistoryEntry)
  : list pynum :=
  (option_list (metric_estimate (drift_series history) (float_literal 0.05))
   ++ option_list
        (metric_estimate (noise_series history) (float_literal 0.01)))%list.

(** [d] is a least element of [l]: it is one of them and none is smaller. *)
Definition is_minimum `{FloatArith} (d : pynum) (l : list pynum) : Prop :=
  d ∈ l /\ Forall (fun d' => PyNum.ltb d' d = false) l.

(** A number of days floored at one: the int 1, or a float above 1. *)
Definition floored_at_one `{FloatArith} (d : pynum) : Prop :=
  match d with
  | PyInt z => z = 1%Z
  | PyFloat x => float_lt (float_of_int 1) x = true
  end.

(** A history entry with a timestamp and a drift rate. *)
Definition drift_entry `{FloatArith} (rate : float) : HistoryEntry :=
  {| timestamp := Some "t"; drift_rate := Some rate; noise_level := None |}.

(** Twenty entries whose drift rate grows by 1/512 per entry, from 0, in
    exact arithmetic and in binary64. *)
Definition slow_drift_history : list (@HistoryEntry exact_arithmetic) :=
  map (fun i => @drift_entry exact_arithmetic (Py.of_nat i / 512)) (seq 0 20).
Definition slow_drift_history64 : list (@HistoryEntry binary64) :=
  map (fun i => @drift_entry binary64
                  (Binary64.literal (inject_Z (Z.of_nat i) / 512)))
      (seq 0 20).

(** Twenty-four entries at a drift rate of 0.01, in exact arithmetic and
    in binary64. *)
Definition level_history : list (@HistoryEntry exact_arithmetic) :=
  replicate 24 (@drift_entry exact_arithmetic 0.01).
Definition level_history64 : list (@HistoryEntry binary64) :=
  replicate 24 (@drift_entry binary64 (Binary64.literal 0.01)).

(** Twenty-four entries whose drift rate rises by 0.0004 per entry from
    0.038, in exact arithmetic and as binary64 computes these rates. *)
Definition rising_history : list (@HistoryEntry exact_arithmetic) :=
  map (fun i => @drift_entry exact_arithmetic (0.038 + 0.0004 * Py.of_nat i))
      (seq 0 24).
Definition rising_history64 : list (@HistoryEntry binary64) :=
  map (fun i =>
         @drift_entry binary64
           (PrimFloat.add (Binary64.literal 0.038)
              (PrimFloat.mul (Binary64.literal 0.0004)
                 (Binary64.of_Z (Z.of_nat i)))))
      (seq 0 24).

(** Twenty-four entries whose last three drift rates, -2^996, 2^997 and
    -2^996, cancel in both sums of the fit, which leaves the slope to the
    1e-12 of the seventeenth entry. *)
Definition cancelling_history64 : list (@HistoryEntry binary64) :=
  map (fun i =>
         @drift_entry binary64
           (if (i =? 16)%nat then Binary64.literal 0.000000000001
            else if (i =? 21)%nat
                 then PrimFloat.opp (FloatOps.Z.ldexp PrimFloat.one 996)
            else if (i =? 22)%nat then FloatOps.Z.ldexp PrimFloat.one 997
            else if (i =? 23)%nat
                 then PrimFloat.opp (FloatOps.Z.ldexp PrimFloat.one 996)
            else PrimFloat.zero))
      (seq 0 24).

(** The denominator of the slope over the indices 0, ..., n - 1, as the
    int64 arithmetic of [_calculate_linear_trend] computes it. *)
Definition slope_denominator (n : nat) : Z :=
  let x := Int64.arange n in
  let sum_x := Int64.sum x in
  let sum_x2 := Int64.sum (zip_with Int64.mul x x) in
  Int64.sub (Int64.mul (Z.of_nat n) sum_x2) (Int64.mul sum_x sum_x).

(** Twenty entries with the drift rate at 0.08 and the noise at 0.02. *)
Definition worn_out_history : list (@HistoryEntry exact_arithmetic) :=
  replicate 20
    (@Build_HistoryEntry exact_arithmetic (Some "t") (Some 0.08) (Some 0.02)).

(** ** Series used by the further properties *)

(** The exactly linear series a, a + b, ..., a + (n - 1) b. *)
Definition ramp (a b : Q) (n : nat) : list Q :=
  map (fun i => a + b * Py.of_nat i) (seq 0 n).

(** The target and the floored deviation that [_calculate_cusum] takes from
    the first ten samples. *)
Definition cusum_target (data : list Q) : Q :=
  Np.mean (take (Nat.min 10 (length data)) data).
Definition cusum_floor `{NpSqrt} (data : list Q) : Q :=
  Py.max (Np.std (take (Nat.min 10 (length data)) data)) 0.000001.

(** The standardized deviation of one sample. *)
Definition cusum_deviation `{NpSqrt} (data : list Q) (x : Q) : Q :=
  (x - cusum_target data) / cusum_floor data.

(** The series shifted by a constant. *)
Definition shift (c : Q) (l : list Q) : list Q := map (fun x => x + c) l.

(** All entries lie between two bounds. *)
Definition within (lo hi : Q) (l : list Q) : Prop :=
  Forall (fun x => lo <= x <= hi) l.

(** ** Cross validation on chosen readings *)

(** The expected values the validator collects from a profile. *)
Definition expected_responses
    (reference_profile : gmap string (gmap string Q)) : list Q :=
  omap (fun e => response_of reference_profile !! e) electrodes.

(** Every listed electrode reads exactly its expected value. *)
Definition readings_match (current_readings : gmap string Q)
    (reference_profile : gmap string (gmap string Q)) : Prop :=
  forall e v, e ∈ electrodes ->
              response_of reference_profile !! e = Some v ->
              reading_or_zero current_readings e = v.

(** Readings equal to the responses of [three_electrode_profile]. *)
Definition exact_readings : gmap string Q :=
  <["SS_voltage" := 1]> (<["Cu_voltage" := 2]> (<["Zn_voltage" := 3]> ∅)).

(** [one_voltage_readings] with the two missing voltages written as 0 and
    the reading of an electrode that the profile does not list. *)
Definition padded_readings : gmap string Q :=
  <["SS_voltage" := 1]> (<["Cu_voltage" := 0]> (<["Zn_voltage" := 0]>
    (<["Ag_voltage" := 5]> ∅))).

(** * Properties *)

(** ** Comparisons and small arithmetic facts *)

Lemma ltb_true (a b : Q) : Py.ltb a b = true <-> a < b.
Proof.
  unfold Py.ltb. rewrite negb_true_iff.
  destruct (Qle_bool b a) eqn:E.
  - apply Qle_bool_iff in E. split; [discriminate | lra].
  - split; [intros _ | reflexivity].
    apply Qnot_le_lt. intro Hle. apply Qle_bool_iff in Hle. congruence.
Qed.

Lemma ltb_false (a b : Q) : Py.ltb a b = false <-> b <= a.
Proof.
  destruct (Py.ltb a b) eqn:E.
  - apply ltb_true in E. split; [discriminate | lra].
  - split; [intros _ | reflexivity].
    apply Qnot_lt_le. intro Hlt. apply ltb_true in Hlt. congruence.
Qed.

Lemma leb_true (a b : Q) : Py.leb a b = true <-> a <= b.
Proof. apply Qle_bool_iff. Qed.

Lemma leb_false (a b : Q) : Py.leb a b = false <-> b < a.
Proof.
  unfold Py.leb. destruct (Qle_bool a b) eqn:E.
  - apply Qle_bool_iff in E. split; [discriminate | lra].
  - split; [intros _ | reflexivity].
    apply Qnot_le_lt. intro Hle. apply Qle_bool_iff in Hle. congruence.
Qed.

Lemma of_nat_S (n : nat) : Py.of_nat (S n) == Py.of_nat n + 1.
Proof.
  unfold Py.of_nat. rewrite Nat2Z.inj_succ. unfold Z.succ.
  rewrite inject_Z_plus. reflexivity.
Qed.

Lemma of_nat_nonneg (n : nat) : 0 <= Py.of_nat n.
Proof.
  unfold Py.of_nat. change 0 with (inject_Z 0).
  rewrite <- Zle_Qle. lia.
Qed.

Lemma of_nat_pos (n : nat) : (0 < n)%nat -> 0 < Py.of_nat n.
Proof.
  intros Hn. unfold Py.of_nat. change 0 with (inject_Z 0).
  rewrite <- Zlt_Qlt. lia.
Qed.

Lemma max_ge_l (a b : Q) : a <= Py.max a b.
Proof.
  unfold Py.max. destruct (Py.ltb a b) eqn:E; [apply ltb_true in E|]; lra.
Qed.

Lemma max_ge_r (a b : Q) : b <= Py.max a b.
Proof.
  unfold Py.max. destruct (Py.ltb a b) eqn:E; [|apply ltb_false in E]; lra.
Qed.

Lemma max_lub (a b c : Q) : a <= c -> b <= c -> Py.max a b <= c.
Proof. intros Ha Hb. unfold Py.max. destruct (Py.ltb a b); assumption. Qed.

(** ** Sums over constant arrays *)

Lemma sum_replicate (c : Q) (n : nat) :
  Np.sum (replicate n c) == Py.of_nat n * c.
Proof.
  induction n as [|n IH]; simpl.
  - unfold Py.of_nat; simpl. ring.
  - rewrite IH, of_nat_S. ring.
Qed.

Lemma mean_replicate (c : Q) (n : nat) :
  (0 < n)%nat -> Np.mean (replicate n c) == c.
Proof.
  intros Hn. unfold Np.mean. rewrite sum_replicate, length_replicate.
  pose proof (of_nat_pos n Hn). field. lra.
Qed.

Lemma sum_mul_replicate (x : list Q) (c : Q) :
  Np.sum (Np.mul x (replicate (length x) c)) == c * Np.sum x.
Proof.
  induction x as [|a x IH]; simpl.
  - ring.
  - unfold Np.mul in IH. rewrite IH. ring.
Qed.

Lemma sum_all_zero (l : list Q) :
  Forall (fun x => x == 0) l -> Np.sum l == 0.
Proof.
  induction 1 as [|x l Hx _ IH]; simpl; [reflexivity|].
  rewrite Hx, IH. ring.
Qed.

Lemma mean_all_zero (l : list Q) :
  Forall (fun x => x == 0) l -> Np.mean l == 0.
Proof.
  intros Hl. unfold Np.mean. rewrite (sum_all_zero l Hl).
  unfold Qdiv. ring.
Qed.

Lemma length_arange (n : nat) : length (Np.arange n) = n.
Proof. unfold Np.arange. rewrite length_map, length_seq. reflexivity. Qed.

(** The least-squares slope of a constant series is zero. *)
Lemma linear_trend_constant (c : Q) (n : nat) :
  _calculate_linear_trend (Np.arange n) (replicate n c) == 0.
Proof.
  unfold _calculate_linear_trend. rewrite length_arange.
  destruct (n <? 2)%nat; [reflexivity|].
  rewrite sum_replicate.
  rewrite <- (length_arange n) at 3.
  rewrite sum_mul_replicate.
  unfold Qdiv. ring.
Qed.

(** ** The four detectors on a constant series *)

Lemma where_from_none (cond : Q -> bool) (l : list Q) (i : nat) :
  Forall (fun x => cond x = false) l -> Np.where_from i cond l = [].
Proof.
  intros Hl. revert i. induction Hl as [|x l Hx _ IH]; intros i; simpl.
  - reflexivity.
  - rewrite Hx. apply IH.
Qed.

Lemma any_none (cond : Q -> bool) (l : list Q) :
  Forall (fun x => cond x = false) l -> Np.any cond l = false.
Proof.
  induction 1 as [|x l Hx _ IH]; simpl; [reflexivity|].
  rewrite Hx. exact IH.
Qed.

(** With all deviations at zero the upper sum never leaves zero ... *)
Lemma cusum_loop_pos_zero (ds : list Q) :
  Forall (fun d => d == 0) ds ->
  cusum_loop (fun prev d => Py.max 0 (prev + d - cusum_k)) 0 ds
  = replicate (length ds) 0.
Proof.
  induction 1 as [|d ds Hd _ IH]; simpl; [reflexivity|].
  assert (Hmax : Py.max 0 (0 + d - cusum_k) = 0).
  { unfold Py.max.
    replace (Py.ltb 0 (0 + d - cusum_k)) with false; [reflexivity|].
    symmetry. apply ltb_false. unfold cusum_k. lra. }
  rewrite Hmax, IH. reflexivity.
Qed.

(** ... and neither does the lower one. *)
Lemma cusum_loop_neg_zero (ds : list Q) :
  Forall (fun d => d == 0) ds ->
  cusum_loop (fun prev d => Py.min 0 (prev + d + cusum_k)) 0 ds
  = replicate (length ds) 0.
Proof.
  induction 1 as [|d ds Hd _ IH]; simpl; [reflexivity|].
  assert (Hmin : Py.min 0 (0 + d + cusum_k) = 0).
  { unfold Py.min.
    replace (Py.ltb (0 + d + cusum_k) 0) with false; [reflexivity|].
    symmetry. apply ltb_false. unfold cusum_k. lra. }
  rewrite Hmin, IH. reflexivity.
Qed.

Lemma cusum_array_zero (step : Q -> Q -> Q) (ds : list Q) :
  (forall l, Forall (fun d => d == 0) l ->
             cusum_loop step 0 l = replicate (length l) 0) ->
  Forall (fun d => d == 0) ds ->
  cusum_array step ds = replicate (length ds) 0.
Proof.
  intros Hloop Hds. destruct Hds as [|d ds _ Hds]; simpl; [reflexivity|].
  rewrite (Hloop ds Hds). reflexivity.
Qed.

Lemma Forall_replicate_intro {A} (P : A -> Prop) (n : nat) (x : A) :
  P x -> Forall P (replicate n x).
Proof. intros Hx. induction n; simpl; constructor; assumption. Qed.

Lemma take_replicate_min {A} (k n : nat) (x : A) :
  take (Nat.min k (length (replicate n x))) (replicate n x)
  = replicate (Nat.min k n) x.
Proof.
  rewrite length_replicate, take_replicate.
  f_equal. lia.
Qed.

Section ConstantSeries.

Context `{NpSqrt}.
Variable c : Q.
Variable n : nat.

Lemma cusum_constant :
  (0 < n)%nat -> alarm_triggered (_calculate_cusum (replicate n c)) = false.
Proof.
  intros Hn. unfold _calculate_cusum.
  rewrite take_replicate_min.
  set (target := Np.mean (replicate (Nat.min 10 n) c)).
  set (floor := Py.max _ 0.000001).
  assert (Htarget : target == c) by (apply mean_replicate; lia).
  assert (Hfloor : 0 < floor).
  { pose proof (max_ge_r (Np.std (replicate (Nat.min 10 n) c)) 0.000001).
    fold floor in H0. lra. }
  set (deviations := map _ (replicate n c)).
  assert (Hdev : Forall (fun d => d == 0) deviations).
  { subst deviations. rewrite Forall_map.
    apply Forall_replicate_intro. rewrite Htarget.
    unfold Qdiv. ring. }
  simpl.
  rewrite (cusum_array_zero _ deviations cusum_loop_pos_zero Hdev).
  rewrite (cusum_array_zero _ deviations cusum_loop_neg_zero Hdev).
  rewrite !any_none; [reflexivity | |];
    apply Forall_replicate_intro; apply ltb_false; unfold cusum_h; lra.
Qed.

Lemma diff_replicate :
  Np.diff (replicate n c) = replicate (n - 1) (c - c).
Proof.
  induction n as [|k IH]; simpl; [reflexivity|].
  destruct k as [|k]; simpl in *; [reflexivity|].
  rewrite IH. rewrite Nat.sub_0_r. reflexivity.
Qed.

Lemma moving_range_constant :
  mr_out_of_control
    (_calculate_moving_range_stats (Np.abs (Np.diff (replicate n c))))
  = false.
Proof.
  rewrite diff_replicate. unfold Np.abs. rewrite fmap_replicate.
  unfold _calculate_moving_range_stats; cbn [mr_out_of_control].
  set (mr := replicate (n - 1) (Qabs (c - c))).
  assert (Hzero : Qabs (c - c) == 0).
  { assert (Hcc : c - c == 0) by ring. rewrite Hcc. reflexivity. }
  assert (Hmean : Np.mean mr == 0).
  { apply mean_all_zero. apply Forall_replicate_intro. exact Hzero. }
  unfold Np.where_. rewrite where_from_none; [reflexivity|].
  apply Forall_replicate_intro.
  apply orb_false_iff. split; apply ltb_false.
  - rewrite Hmean, Hzero. unfold mr_d4. lra.
  - apply max_lub; rewrite ?Hmean, Hzero; unfold mr_d3; lra.
Qed.

(** The run below the centre line grows at every point that is not above
    it, whatever the point's distance to the line. *)
Lemma rule2_loop_never_above (mean_val : Q) (k above below : nat) :
  mean_val == c -> (below < 9)%nat -> (9 <= below + k)%nat ->
  rule2_loop mean_val (replicate k c) above below = true.
Proof.
  intros Hmean. revert above below.
  induction k as [|k IH]; intros above below Hlt Hge; [lia|].
  cbn [replicate rule2_loop].
  replace (Py.ltb mean_val c) with false
    by (symmetry; apply ltb_false; lra).
  change (9 <=? 0)%nat with false. cbn [orb].
  destruct (9 <=? S below)%nat eqn:E; [reflexivity|].
  apply Nat.leb_gt in E. apply IH; lia.
Qed.

Lemma spc_constant :
  (9 <= n)%nat ->
  rule2_violation (_statistical_process_control (replicate n c)) = true
  /\ spc_out_of_control (_statistical_process_control (replicate n c)) = true.
Proof.
  intros Hn. unfold _statistical_process_control.
  cbn [rule2_violation spc_out_of_control].
  rewrite rule2_loop_never_above; [| apply mean_replicate; lia | lia | lia].
  split; [reflexivity | apply orb_true_r].
Qed.

(** Under the specification's reading of Rule 2 the run never starts. *)
Lemma rule2_spec_constant (mean_val : Q) (k : nat) :
  mean_val == c -> rule2_spec mean_val (replicate k c) 0 0 = false.
Proof.
  intros Hmean. induction k as [|k IH]; [reflexivity|].
  cbn [replicate rule2_spec].
  replace (Py.ltb mean_val c) with false
    by (symmetry; apply ltb_false; lra).
  replace (Py.ltb c mean_val) with false
    by (symmetry; apply ltb_false; lra).
  change (9 <=? 0)%nat with false. cbn [orb]. exact IH.
Qed.

End ConstantSeries.

(** ** The reference table *)

Lemma electrode_standards_keys (k : string) :
  is_Some (electrode_standards !! k) <-> k ∈ electrodes.
Proof.
  unfold electrode_standards, electrodes. split.
  - intros [s Hk].
    repeat (apply lookup_insert_Some in Hk as [[<- _]|[_ Hk]];
            [set_solver|]).
    rewrite lookup_empty in Hk. discriminate.
  - intros Hk. repeat (apply elem_of_cons in Hk as [->|Hk]; [eexists; reflexivity|]).
    apply elem_of_nil in Hk. contradiction.
Qed.

Lemma electrode_standards_aging (k : string) (s : ElectrodeStandard) :
  electrode_standards !! k = Some s -> 0 < aging_rate s.
Proof.
  unfold electrode_standards. intros Hk.
  repeat (apply lookup_insert_Some in Hk as [[_ <-]|[_ Hk]];
          [reflexivity|]).
  rewrite lookup_empty in Hk. discriminate.
Qed.

Lemma select_drift_threshold_pos (st : string) (et : option string) (thr : Q) :
  select_drift_threshold st et = Ok thr -> 0 < thr.
Proof.
  unfold select_drift_threshold, Py.getitem.
  destruct (String.eqb st "electrode" && Py.truthy et).
  - destruct (electrode_standards !! default EmptyString et) as [s|] eqn:Hk;
      simpl; [|discriminate].
    intros [= <-]. apply electrode_standards_aging in Hk.
    apply Qlt_shift_div_l; lra.
  - destruct (String.eqb st "pH"); intros [= <-]; reflexivity.
Qed.

(** The threshold selection raises exactly on an electrode missing from
    the table. *)
Lemma select_drift_threshold_raises (st : string) (et : option string) (e : exn) :
  select_drift_threshold st et = Raise e <->
  st = "electrode" /\ Py.truthy et = true
  /\ electrode_standards !! default EmptyString et = None
  /\ e = KeyError (default EmptyString et).
Proof.
  unfold select_drift_threshold, Py.getitem.
  destruct (String.eqb st "electrode") eqn:Hst; simpl.
  - apply String.eqb_eq in Hst.
    destruct (Py.truthy et); simpl.
    + destruct (electrode_standards !! default EmptyString et); simpl.
      * split; [discriminate | intros (_ & _ & [=] & _)].
      * split; [intros [= <-]; auto | intros (_ & _ & _ & ->); reflexivity].
    + destruct (String.eqb st "pH");
        (split; [discriminate | intros (_ & [=] & _)]).
  - apply String.eqb_neq in Hst.
    destruct (String.eqb st "pH");
      (split; [discriminate | intros (? & _); contradiction]).
Qed.

(** ** Drift detection: the vote *)

(** C5. For a series of at least ten readings and a configuration whose
    threshold lookup succeeds, the detector returns a full analysis whose
    confidence is the number of true indicators over four, and which reports
    drift exactly when that confidence is at least 0.4. *)
Theorem drift_confidence_is_indicator_fraction `{NpSqrt}
    (series : list Q) (sensor_type : string) (electrode_type : option string)
    (threshold : Q) :
  (10 <= length series)%nat ->
  select_drift_threshold sensor_type electrode_type = Ok threshold ->
  exists r,
    detect_sensor_drift series sensor_type electrode_type = Ok (DriftAnalysis r)
    /\ drift_confidence r == Py.of_nat (true_indicators r) / 4
    /\ (drift_detected r = true <-> 0.4 <= drift_confidence r).
Proof.
  intros Hlen Hthr. unfold detect_sensor_drift.
  replace (length series <? 10)%nat with false
    by (symmetry; apply Nat.ltb_ge; exact Hlen).
  rewrite Hthr. cbn [Py.bind].
  eexists. split; [reflexivity|].
  cbn [drift_confidence drift_detected individual_indicators true_indicators].
  split; [reflexivity | apply leb_true].
Qed.

(** The instance of C5 at ten readings of a platinum electrode. *)
Lemma drift_confidence_is_indicator_fraction_witness :
  exists r,
    @detect_sensor_drift sqrt_down_instance
      [2; 2.5; 2; 2.5; 2; 2.5; 2; 2.5; 2; 3] "electrode" (Some "Pt")
    = Ok (DriftAnalysis r)
    /\ drift_confidence r == Py.of_nat (true_indicators r) / 4
    /\ (drift_detected r = true <-> 0.4 <= drift_confidence r).
Proof.
  apply (@drift_confidence_is_indicator_fraction sqrt_down_instance
           [2; 2.5; 2; 2.5; 2; 2.5; 2; 2.5; 2; 3] "electrode" (Some "Pt")
           (0.003 / 30)).
  - simpl. lia.
  - reflexivity.
Defined.

(** Two of four: drift is reported exactly when at least two indicators
    are true. *)
Theorem drift_detected_two_of_four `{NpSqrt}
    (series : list Q) (sensor_type : string) (electrode_type : option string)
    (threshold : Q) :
  (10 <= length series)%nat ->
  select_drift_threshold sensor_type electrode_type = Ok threshold ->
  exists r,
    detect_sensor_drift series sensor_type electrode_type = Ok (DriftAnalysis r)
    /\ (drift_detected r = true <-> (2 <= true_indicators r)%nat).
Proof.
  intros Hlen Hthr. unfold detect_sensor_drift.
  replace (length series <? 10)%nat with false
    by (symmetry; apply Nat.ltb_ge; exact Hlen).
  rewrite Hthr. cbn [Py.bind].
  eexists. split; [reflexivity|].
  cbn [drift_detected individual_indicators true_indicators drift_confidence].
  rewrite leb_true. unfold indicator_values, sum_bools.
  set (b1 := Py.ltb threshold _). set (b2 := alarm_triggered _).
  set (b3 := mr_out_of_control _). set (b4 := spc_out_of_control _).
  clearbody b1 b2 b3 b4.
  destruct b1, b2, b3, b4; vm_compute; split; intros Hx;
    try discriminate; try lia; try (exfalso; apply Hx; reflexivity).
Qed.

Lemma drift_detected_two_of_four_witness :
  exists r,
    @detect_sensor_drift sqrt_down_instance
      [2; 2.5; 2; 2.5; 2; 2.5; 2; 2.5; 2; 3] "pH" None
    = Ok (DriftAnalysis r)
    /\ (drift_detected r = true <-> (2 <= true_indicators r)%nat).
Proof.
  apply (@drift_detected_two_of_four sqrt_down_instance
           [2; 2.5; 2; 2.5; 2; 2.5; 2; 2.5; 2; 3] "pH" None 1.0).
  - simpl. lia.
  - reflexivity.
Defined.

(** ** Drift detection on a constant series *)

(** C1. On every constant series of at least ten readings the Rule 2 loop
    counts the points, which all sit on the centre line, as a run below it:
    the SPC alarm is the one indicator that fires, the confidence is 1/4
    and not 0, and no drift is reported. *)
Theorem constant_series_fires_rule2 `{NpSqrt}
    (c : Q) (n : nat) (sensor_type : string) (electrode_type : option string)
    (threshold : Q) :
  (10 <= n)%nat ->
  select_drift_threshold sensor_type electrode_type = Ok threshold ->
  exists r,
    detect_sensor_drift (replicate n c) sensor_type electrode_type
    = Ok (DriftAnalysis r)
    /\ rule2_violation (spc_statistics r) = true
    /\ rule2_spec (spc_mean (spc_statistics r)) (replicate n c) 0 0 = false
    /\ individual_indicators r
       = {| linear_trend := false; cusum_alarm := false;
            range_alarm := false; spc_alarm := true |}
    /\ drift_confidence r == 1 # 4
    /\ ~ drift_confidence r == 0
    /\ drift_detected r = false.
Proof.
  intros Hn Hthr. unfold detect_sensor_drift.
  rewrite length_replicate.
  replace (n <? 10)%nat with false by (symmetry; apply Nat.ltb_ge; exact Hn).
  replace (1 <? n)%nat with true by (symmetry; apply Nat.ltb_lt; lia).
  rewrite Hthr. cbn [Py.bind].
  eexists. split; [reflexivity|].
  cbn [spc_statistics individual_indicators drift_confidence drift_detected].
  destruct (spc_constant c n ltac:(lia)) as [Hrule2 Hspc].
  rewrite (cusum_constant c n ltac:(lia)), (moving_range_constant c n), Hspc.
  assert (Htrend : Py.ltb threshold
            (Qabs (_calculate_linear_trend (Np.arange n) (replicate n c)
                   * 3600 / Py.of_nat n)) = false).
  { apply ltb_false. rewrite linear_trend_constant.
    apply select_drift_threshold_pos in Hthr.
    assert (Hz : 0 * 3600 / Py.of_nat n == 0) by (unfold Qdiv; ring).
    rewrite Hz. change (Qabs 0) with 0. lra. }
  rewrite Htrend.
  split; [exact Hrule2|].
  split; [apply rule2_spec_constant; apply mean_replicate; lia|].
  split; [reflexivity|].
  split; [reflexivity|].
  split; [discriminate | reflexivity].
Qed.

(** The failing input of C1: ten readings of 2.0 V on the platinum
    electrode. *)
Lemma constant_series_fires_rule2_witness :
  exists r,
    @detect_sensor_drift sqrt_down_instance (replicate 10 2) "electrode"
      (Some "Pt")
    = Ok (DriftAnalysis r)
    /\ rule2_violation (spc_statistics r) = true
    /\ rule2_spec (spc_mean (spc_statistics r)) (replicate 10 2) 0 0 = false
    /\ individual_indicators r
       = {| linear_trend := false; cusum_alarm := false;
            range_alarm := false; spc_alarm := true |}
    /\ drift_confidence r == 1 # 4
    /\ ~ drift_confidence r == 0
    /\ drift_detected r = false.
Proof.
  apply (@constant_series_fires_rule2 sqrt_down_instance 2 10 "electrode"
           (Some "Pt") (0.003 / 30)).
  - lia.
  - reflexivity.
Defined.

(** ** Unknown configurations *)

Lemma detect_sensor_drift_raises `{NpSqrt}
    (series : list Q) (sensor_type : string) (electrode_type : option string)
    (e : exn) :
  detect_sensor_drift series sensor_type electrode_type = Raise e <->
  (10 <= length series)%nat
  /\ select_drift_threshold sensor_type electrode_type = Raise e.
Proof.
  unfold detect_sensor_drift.
  destruct (length series <? 10)%nat eqn:Hlen.
  - apply Nat.ltb_lt in Hlen. split; [discriminate | intros [? _]; lia].
  - apply Nat.ltb_ge in Hlen.
    destruct (select_drift_threshold sensor_type electrode_type); cbn [Py.bind].
    + split; [discriminate | intros [_ [=]]].
    + split; [intros [= ->]; auto | intros [_ [= ->]]; reflexivity].
Qed.

(** C7, as the code has it. Detection raises exactly when it is given at
    least ten readings of sensor type electrode with a non-empty electrode
    type missing from the table, and then with a KeyError; compensation
    raises a KeyError exactly for such an electrode type; a sensor type
    outside electrode, pH and conductivity never raises and takes the
    default threshold 0.01 and the default correction -0.001 per degree. *)
Theorem unknown_electrode_raises_unknown_sensor_defaults `{NpSqrt}
    (series : list Q) (reading temperature : Q)
    (sensor_type : string) (electrode_type : option string) :
  (forall e,
      detect_sensor_drift series sensor_type electrode_type = Raise e <->
      (10 <= length series)%nat /\ sensor_type = "electrode"
      /\ Py.truthy electrode_type = true
      /\ electrode_standards !! default EmptyString electrode_type = None
      /\ e = KeyError (default EmptyString electrode_type))
  /\ (forall k,
      apply_temperature_compensation reading temperature sensor_type
        electrode_type = Raise (KeyError k) <->
      sensor_type = "electrode" /\ Py.truthy electrode_type = true
      /\ electrode_standards !! default EmptyString electrode_type = None
      /\ k = default EmptyString electrode_type)
  /\ (other_sensor sensor_type ->
      select_drift_threshold sensor_type electrode_type = Ok 0.01
      /\ Py.raises (detect_sensor_drift series sensor_type electrode_type)
         = false
      /\ apply_temperature_compensation reading temperature sensor_type
           electrode_type
         = Ok (reading - - 0.001 * (temperature - reference_temp))).
Proof.
  split; [|split].
  - intros e. rewrite detect_sensor_drift_raises, select_drift_threshold_raises.
    tauto.
  - intros k. unfold apply_temperature_compensation, Py.getitem.
    destruct (String.eqb sensor_type "electrode") eqn:Hst; simpl.
    + apply String.eqb_eq in Hst.
      destruct (Py.truthy electrode_type); simpl.
      * destruct (electrode_standards !! default EmptyString electrode_type);
          simpl.
        -- split; [discriminate | intros (_ & _ & [=] & _)].
        -- split; [intros [= <-]; auto | intros (_ & _ & _ & ->); reflexivity].
      * subst sensor_type. simpl.
        split; [discriminate | intros (_ & [=] & _)].
    + apply String.eqb_neq in Hst.
      destruct (String.eqb sensor_type "pH");
        [split; [discriminate | intros (? & _); contradiction]|].
      destruct (String.eqb sensor_type "conductivity");
        [|split; [discriminate | intros (? & _); contradiction]].
      destruct (Qeq_bool _ 0);
        split; try discriminate; intros (? & _); contradiction.
  - intros (He & Hp & Hc).
    apply String.eqb_neq in He, Hp, Hc.
    assert (Hthr : select_drift_threshold sensor_type electrode_type = Ok 0.01).
    { unfold select_drift_threshold. rewrite He, Hp. reflexivity. }
    split; [exact Hthr | split].
    + unfold detect_sensor_drift.
      destruct (length series <? 10)%nat; [reflexivity|].
      rewrite Hthr. reflexivity.
    + unfold apply_temperature_compensation. rewrite He, Hp, Hc. reflexivity.
Qed.

(** C7 as stated fails: a sensor type the table does not know is served by
    the default branches of both operations. *)
Lemma unknown_sensor_type_is_not_refused :
  other_sensor "humidity"
  /\ Py.raises (@detect_sensor_drift sqrt_down_instance
                  (replicate 10 2) "humidity" None) = false
  /\ exists w, apply_temperature_compensation 2 30 "humidity" None = Ok w
               /\ w == 2.005.
Proof.
  split; [|split].
  - repeat split; discriminate.
  - vm_compute. reflexivity.
  - eexists. split; reflexivity.
Qed.

(** The division of the conductivity branch is a second way to fail: at
    1 + 0.021 (T - 25) = 0 it divides by zero. *)
Lemma conductivity_zero_division (reading : Q) :
  apply_temperature_compensation reading (- 475 # 21) "conductivity" None
  = Raise ZeroDivisionError.
Proof. reflexivity. Qed.

(** ** Compensation at the reference temperature *)

(** C6, in exact arithmetic. At exactly 25 degrees every branch returns
    the reading: each electrode of the table, conductivity, pH, and the
    default branch. *)
Theorem compensation_is_identity_at_reference (v : Q) :
  (forall electrode_type, electrode_type ∈ electrodes ->
     exists w, apply_temperature_compensation v 25.0 "electrode"
                 (Some electrode_type) = Ok w /\ w == v)
  /\ (forall electrode_type,
     exists w, apply_temperature_compensation v 25.0 "conductivity"
                 electrode_type = Ok w /\ w == v)
  /\ (forall electrode_type,
     exists w, apply_temperature_compensation v 25.0 "pH"
                 electrode_type = Ok w /\ w == v)
  /\ (forall sensor_type electrode_type,
     String.eqb sensor_type "electrode" && Py.truthy electrode_type = false ->
     sensor_type <> "pH" -> sensor_type <> "conductivity" ->
     exists w, apply_temperature_compensation v 25.0 sensor_type
                 electrode_type = Ok w /\ w == v).
Proof.
  split; [|split; [|split]].
  - intros et Het.
    assert (Htruthy : Py.truthy (Some et) = true).
    { unfold electrodes in Het.
      repeat (apply elem_of_cons in Het as [->|Het]; [reflexivity|]).
      apply elem_of_nil in Het. contradiction. }
    apply electrode_standards_keys in Het as [s Hs].
    unfold apply_temperature_compensation, Py.getitem.
    rewrite Htruthy. change (String.eqb "electrode" "electrode") with true.
    cbn [andb]. change (default EmptyString (Some et)) with et.
    rewrite Hs. cbn [Py.bind].
    eexists. split; [reflexivity|]. unfold reference_temp. ring.
  - intros et. unfold apply_temperature_compensation.
    change (String.eqb "conductivity" "electrode") with false.
    change (String.eqb "conductivity" "pH") with false.
    change (String.eqb "conductivity" "conductivity") with true.
    cbn [andb].
    replace (Qeq_bool _ 0) with false by reflexivity.
    eexists. split; [reflexivity|].
    unfold reference_temp, conductivity_temp_coefficient. field.
  - intros et. unfold apply_temperature_compensation.
    change (String.eqb "pH" "electrode") with false.
    change (String.eqb "pH" "pH") with true.
    cbn [andb].
    eexists. split; [reflexivity|]. field.
  - intros st et He Hp Hc.
    apply String.eqb_neq in Hp, Hc.
    unfold apply_temperature_compensation. rewrite He, Hp, Hc.
    eexists. split; [reflexivity|]. unfold reference_temp. ring.
Qed.

(** C6 as stated fails on the pH branch: in binary64 the subtraction
    reading - 2.0 rounds away the last bits of a reading such as 0.1, and
    the recomposed voltage, 0.10000000000000031, lies above the reading;
    the electrode, conductivity and default branches return exactly 0.1. *)
Lemma pH_branch_rounds_in_binary64 :
  (exists w,
      Binary64.apply_temperature_compensation
        (Binary64.literal 0.1) (Binary64.literal 25.0) "pH" None = Ok w
      /\ PrimFloat.eqb w (Binary64.literal 0.1) = false
      /\ PrimFloat.ltb (Binary64.literal 0.1) w = true)
  /\ Binary64.apply_temperature_compensation
       (Binary64.literal 0.1) (Binary64.literal 25.0) "electrode" (Some "Pt")
     = Ok (Binary64.literal 0.1)
  /\ Binary64.apply_temperature_compensation
       (Binary64.literal 0.1) (Binary64.literal 25.0) "conductivity" None
     = Ok (Binary64.literal 0.1)
  /\ Binary64.apply_temperature_compensation
       (Binary64.literal 0.1) (Binary64.literal 25.0) "humidity" None
     = Ok (Binary64.literal 0.1).
Proof.
  split; [|repeat split; vm_compute; reflexivity].
  eexists. split; [reflexivity|]. split; vm_compute; reflexivity.
Qed.

(** ** The Kalman filter *)

Lemma length_kalman_running (pn mn x p : Q) (obs : list Q) :
  length (kalman_running pn mn x p obs) = length obs.
Proof.
  revert x p. induction obs as [|z zs IH]; intros x p; simpl;
    [reflexivity | rewrite IH; reflexivity].
Qed.

(** The loop invariant: once the indices of [prefix] are done, the array
    holds their estimates followed by zeros, and the remaining iterations
    write the recursion's estimates of [rest] behind them. *)
Lemma kalman_loop_invariant (pn mn : Q) (rest prefix done : list Q) (x p : Q) :
  length done = length prefix ->
  filtered
    (fold_left (kalman_iteration pn mn (prefix ++ rest))
       (seq (length prefix) (length rest))
       {| x_est := x; p_est := p;
          filtered := (done ++ replicate (length rest) 0)%list |})
  = (done ++ kalman_running pn mn x p rest)%list.
Proof.
  revert prefix done x p.
  induction rest as [|z zs IH]; intros prefix done x p Hlen; [reflexivity|].
  cbn [length seq fold_left kalman_running replicate].
  unfold kalman_iteration at 2. cbn [x_est p_est filtered].
  rewrite list_lookup_middle by reflexivity. cbn [default].
  rewrite insert_app_r_alt by lia.
  rewrite Hlen, Nat.sub_diag. cbn [insert list_insert].
  set (x' := x + (p + pn) / (p + pn + mn) * (z - x)).
  set (p' := (1 - (p + pn) / (p + pn + mn)) * (p + pn)).
  replace (S (length prefix)) with (length (prefix ++ [z]))
    by (rewrite length_app; simpl; lia).
  rewrite (cons_middle z prefix zs), (cons_middle x' done), !app_assoc.
  rewrite (cons_middle x' done (kalman_running pn mn x' p' zs)), app_assoc.
  apply IH. rewrite !length_app. simpl. lia.
Qed.

(** The array the loop fills is the list the recursion builds, started at
    the first sample with covariance 1 and run over the whole series. *)
Lemma kalman_filter_as_recursion (series : list Q) (sensor_type : string) :
  (3 <= length series)%nat ->
  kalman_filter_enhancement series sensor_type
  = kalman_running (fst (kalman_noise sensor_type))
      (snd (kalman_noise sensor_type))
      (default 0 (series !! 0%nat)) 1.0 series.
Proof.
  intros Hlen. unfold kalman_filter_enhancement.
  replace (length series <? 3)%nat with false
    by (symmetry; apply Nat.ltb_ge; exact Hlen).
  destruct (kalman_noise sensor_type) as [pn mn]. cbn [fst snd].
  pose proof (kalman_loop_invariant pn mn series [] []
                (default 0 (series !! 0%nat)) 1.0 eq_refl) as Hinv.
  cbn [app length] in Hinv. exact Hinv.
Qed.

(** C2, as the code has it. For a series of at least three samples the
    filter returns the running estimates of the predict and update steps
    started at estimate = series[0], covariance = 1.0 and performed for
    every sample, the first included, with the noise constants of the
    sensor type. *)
Theorem kalman_filter_steps_on_every_sample
    (series : list Q) (sensor_type : string) :
  (3 <= length series)%nat ->
  kalman_filter_enhancement series sensor_type
  = kalman_every_sample series sensor_type.
Proof.
  intros Hlen. rewrite kalman_filter_as_recursion by exact Hlen.
  unfold kalman_every_sample.
  destruct (kalman_noise sensor_type) as [pn mn].
  destruct series as [|z0 rest]; [simpl in Hlen; lia | reflexivity].
Qed.

(** C2 amended, at the series 0, 1, 1 of an electrode. *)
Lemma kalman_filter_steps_on_every_sample_witness :
  kalman_filter_enhancement [0; 1; 1] "electrode"
  = kalman_every_sample [0; 1; 1] "electrode".
Proof.
  apply (kalman_filter_steps_on_every_sample [0; 1; 1] "electrode").
  simpl. lia.
Defined.

(** C2 as stated fails: on the series 0, 1, 1 the second estimate of the
    code is about 0.50, the first sample having already shrunk the
    covariance, where the recursion over the subsequent samples only gives
    about 0.9999. *)
Lemma kalman_filter_is_not_subsequent_only :
  (3 <= length [0; 1; 1])%nat
  /\ (exists y, kalman_filter_enhancement [0; 1; 1] "electrode" !! 1%nat = Some y
                /\ 0.50 < y < 0.51)
  /\ (exists y, kalman_subsequent_only [0; 1; 1] "electrode" !! 1%nat = Some y
                /\ 0.9999 < y < 1)
  /\ ~ Forall2 Qeq (kalman_filter_enhancement [0; 1; 1] "electrode")
                   (kalman_subsequent_only [0; 1; 1] "electrode").
Proof.
  split; [simpl; lia|].
  split; [eexists; split; [vm_compute; reflexivity | split; reflexivity]|].
  split; [eexists; split; [vm_compute; reflexivity | split; reflexivity]|].
  intros Hall.
  apply Forall2_cons_1 in Hall as [_ Hall].
  apply Forall2_cons_1 in Hall as [Hsecond _].
  vm_compute in Hsecond. discriminate Hsecond.
Qed.

(** C10. For a series of at least three samples the output has the length
    of the input and its first element is the first sample: the step on
    the first sample has zero innovation. *)
Theorem kalman_filter_keeps_first_sample_and_length
    (series : list Q) (sensor_type : string) :
  (3 <= length series)%nat ->
  length (kalman_filter_enhancement series sensor_type) = length series
  /\ exists z0 y0,
       series !! 0%nat = Some z0
       /\ kalman_filter_enhancement series sensor_type !! 0%nat = Some y0
       /\ y0 == z0.
Proof.
  intros Hlen. rewrite kalman_filter_as_recursion by exact Hlen.
  split; [apply length_kalman_running|].
  destruct series as [|z0 rest]; [simpl in Hlen; lia|].
  cbn [lookup list_lookup default kalman_running].
  eexists _, _. split; [reflexivity | split; [reflexivity|]].
  unfold Qdiv, id. ring.
Qed.

(** C10 at the series 0.5, 1, 1.5 of a pH sensor. *)
Lemma kalman_filter_keeps_first_sample_and_length_witness :
  length (kalman_filter_enhancement [0.5; 1; 1.5] "pH") = length [0.5; 1; 1.5]
  /\ exists z0 y0,
       [0.5; 1; 1.5] !! 0%nat = Some z0
       /\ kalman_filter_enhancement [0.5; 1; 1.5] "pH" !! 0%nat = Some y0
       /\ y0 == z0.
Proof.
  apply (kalman_filter_keeps_first_sample_and_length [0.5; 1; 1.5] "pH").
  simpl. lia.
Defined.

(** Shorter series are returned as they are. *)
Theorem kalman_filter_short_series (series : list Q) (sensor_type : string) :
  (length series < 3)%nat ->
  kalman_filter_enhancement series sensor_type = series.
Proof.
  intros Hlen. unfold kalman_filter_enhancement.
  replace (length series <? 3)%nat with true
    by (symmetry; apply Nat.ltb_lt; exact Hlen).
  reflexivity.
Qed.

Lemma kalman_filter_short_series_witness :
  kalman_filter_enhancement [1; 2] "electrode" = [1; 2].
Proof.
  apply (kalman_filter_short_series [1; 2] "electrode"). simpl. lia.
Defined.

(** ** Floats that stay on one side *)

Lemma signed_inf_nonneg (a : Q) : 0 <= a -> nonneg_or_nan (F.signed_inf a).
Proof.
  intros Ha. unfold F.signed_inf.
  destruct (Qeq_bool a 0) eqn:E0; [exact I|].
  destruct (Py.ltb 0 a) eqn:E; [exact I|].
  apply ltb_false in E. apply Qeq_bool_neq in E0.
  exfalso. apply E0. lra.
Qed.

Lemma div_nonneg (a b : Q) :
  0 <= a -> 0 <= b -> nonneg_or_nan (F.div (Fin a) (Fin b)).
Proof.
  intros Ha Hb. unfold F.div.
  destruct (Qeq_bool b 0) eqn:E0; [apply signed_inf_nonneg; exact Ha|].
  apply Qeq_bool_neq in E0. simpl.
  apply Qle_shift_div_l; lra.
Qed.

Lemma abs_nonneg (x : npfloat) : nonneg_or_nan (F.abs x).
Proof. destruct x; simpl; [apply Qabs_nonneg | exact I..]. Qed.

Lemma add_nonneg (x y : npfloat) :
  nonneg_or_nan x -> nonneg_or_nan y -> nonneg_or_nan (F.add x y).
Proof. destruct x, y; simpl; intros Hx Hy; try exact I; try contradiction. lra. Qed.

Lemma mul_pos_nonneg (x : npfloat) (k : Q) :
  0 < k -> nonneg_or_nan x -> nonneg_or_nan (F.mul x (Fin k)).
Proof.
  intros Hk. destruct x; simpl; intros Hx; try exact I; try contradiction.
  - apply Qmult_le_0_compat; lra.
  - apply signed_inf_nonneg. lra.
Qed.

Lemma div_pos_nonneg (x : npfloat) (k : Q) :
  0 < k -> nonneg_or_nan x -> nonneg_or_nan (F.div x (Fin k)).
Proof.
  intros Hk. destruct x; simpl; intros Hx; try exact I; try contradiction.
  - replace (Qeq_bool k 0) with false.
    + simpl. apply Qle_shift_div_l; lra.
    + symmetry. apply not_true_iff_false. intros E.
      apply Qeq_bool_iff in E. lra.
  - replace (Py.ltb k 0) with false; [exact I|].
    symmetry. apply ltb_false. lra.
Qed.

Lemma sum_nonneg (l : list npfloat) :
  Forall nonneg_or_nan l -> nonneg_or_nan (F.sum l).
Proof.
  induction 1 as [|x l Hx _ IH]; simpl; [lra|].
  apply add_nonneg; assumption.
Qed.

Lemma mean_nonneg (l : list npfloat) :
  Forall nonneg_or_nan l -> nonneg_or_nan (F.mean l).
Proof.
  intros Hl. unfold F.mean.
  pose proof (sum_nonneg l Hl) as Hsum.
  pose proof (of_nat_nonneg (length l)) as Hlen.
  destruct (F.sum l) as [q| | |]; simpl in Hsum; try exact I; try contradiction.
  - apply div_nonneg; assumption.
  - simpl. destruct (Py.ltb _ 0) eqn:E; [|exact I].
    apply ltb_true in E. lra.
Qed.

Lemma one_minus_nonneg (x : npfloat) :
  nonneg_or_nan x -> at_most_one_or_nan (F.sub (Fin 1) x).
Proof. destruct x; simpl; intros Hx; try exact I; try contradiction. lra. Qed.

Lemma clip_unit (x : npfloat) : at_most_one_or_nan (F.clip x (- 1) 1).
Proof.
  destruct x as [q| | |]; simpl; try exact I; try lra.
  unfold Py.min. destruct (Py.ltb 1 _) eqn:E; [lra|].
  apply ltb_false in E. exact E.
Qed.

(** [max(0, x)] of a float that is not above one is a rational of the unit
    interval: NaN and [-inf] both give 0. *)
Lemma max_zero_unit (x : npfloat) :
  at_most_one_or_nan x ->
  exists c, F.max (Fin 0) x = Fin c /\ 0 <= c <= 1.
Proof.
  destruct x as [q| | |]; simpl; intros Hx; try contradiction.
  - unfold F.max, F.ltb. destruct (Py.ltb 0 q) eqn:E.
    + apply ltb_true in E. exists q. split; [reflexivity | lra].
    + exists 0. split; [reflexivity | lra].
  - exists 0. split; [reflexivity | lra].
  - exists 0. split; [reflexivity | lra].
Qed.

(** [np.min] is below [np.max]. *)
Lemma fold_min_le (xs : list Q) (x : Q) : fold_left Py.min xs x <= x.
Proof.
  revert x. induction xs as [|y ys IH]; intros x; simpl; [lra|].
  specialize (IH (Py.min x y)).
  assert (Py.min x y <= x); [|lra].
  unfold Py.min. destruct (Py.ltb y x) eqn:E; [apply ltb_true in E|]; lra.
Qed.

Lemma fold_max_ge (xs : list Q) (x : Q) : x <= fold_left Py.max xs x.
Proof.
  revert x. induction xs as [|y ys IH]; intros x; simpl; [lra|].
  specialize (IH (Py.max x y)).
  pose proof (max_ge_l x y). lra.
Qed.

Lemma amin_le_amax (l : list Q) : Np.amin l <= Np.amax l.
Proof.
  destruct l as [|x xs]; simpl; [lra|].
  pose proof (fold_min_le xs x). pose proof (fold_max_ge xs x). lra.
Qed.

(** ** Cross validation: which electrodes count *)

Lemma collect_electrodes_spec (response readings : gmap string Q)
    (names : list string) :
  collect_electrodes response readings names
  = (omap (fun e => response !! e) names,
     map (reading_or_zero readings)
         (filter (fun e => is_Some (response !! e)) names)).
Proof.
  induction names as [|e names IH]; [reflexivity|].
  cbn [collect_electrodes]. rewrite IH.
  rewrite filter_cons. cbn [omap list_omap].
  destruct (response !! e) as [v|] eqn:He.
  - rewrite decide_True by (eexists; reflexivity). reflexivity.
  - rewrite decide_False by (intros [? [=]]). reflexivity.
Qed.

Lemma length_omap_filter (response : gmap string Q) (names : list string) :
  length (omap (fun e => response !! e) names)
  = length (filter (fun e => is_Some (response !! e)) names).
Proof.
  induction names as [|e names IH]; [reflexivity|].
  rewrite filter_cons. cbn [omap list_omap].
  destruct (response !! e) as [v|] eqn:He.
  - rewrite decide_True by (eexists; reflexivity). simpl. rewrite <- IH.
    reflexivity.
  - rewrite decide_False by (intros [? [=]]). exact IH.
Qed.

Lemma score_status_is_a_match (s : npfloat) :
  match score_status s with
  | insufficient_data | insufficient_reference_data => False
  | _ => True
  end.
Proof.
  unfold score_status.
  destruct (F.leb (Fin 80) s); [exact I|].
  destruct (F.leb (Fin 60) s); [exact I|].
  destruct (F.leb (Fin 40) s); [exact I|].
  destruct (F.leb (Fin 20) s); exact I.
Qed.

(** C4, as the code has it. The validator answers with a sentinel exactly
    when the reference profile or the reading set is empty or fewer than
    three of the five electrodes are listed in the reference profile;
    otherwise it computes a result, reading every listed electrode whose
    voltage is missing as 0. *)
Theorem sentinel_counts_reference_electrodes `{NpSqrt}
    (current_readings : gmap string Q)
    (reference_profile : gmap string (gmap string Q)) (herb : string) :
  let result := cross_validation_check current_readings reference_profile herb in
  (is_sentinel result = true <->
   reference_profile = ∅ \/ current_readings = ∅
   \/ (length (listed_electrodes reference_profile) < 3)%nat)
  /\ (is_sentinel result = false ->
      exists cmp, electrode_comparison result = Some cmp
        /\ actual cmp
           = map (reading_or_zero current_readings)
                 (listed_electrodes reference_profile)).
Proof.
  cbv zeta. unfold cross_validation_check.
  destruct (bool_decide (reference_profile = ∅)) eqn:Hrp; cbn [orb].
  { apply bool_decide_eq_true in Hrp.
    split; [split; auto | discriminate]. }
  apply bool_decide_eq_false in Hrp.
  destruct (bool_decide (current_readings = ∅)) eqn:Hcr.
  { apply bool_decide_eq_true in Hcr.
    split; [split; auto | discriminate]. }
  apply bool_decide_eq_false in Hcr.
  rewrite collect_electrodes_spec. fold (response_of reference_profile).
  rewrite length_omap_filter. fold (listed_electrodes reference_profile).
  destruct (length (listed_electrodes reference_profile) <? 3)%nat eqn:Hlen.
  { apply Nat.ltb_lt in Hlen. split; [split; auto | discriminate]. }
  apply Nat.ltb_ge in Hlen.
  unfold is_sentinel. cbn [status electrode_comparison].
  match goal with |- context [score_status ?s] =>
    pose proof (score_status_is_a_match s) as Hst;
    destruct (score_status s) end; try contradiction;
    (split; [split; [discriminate | intros [?|[?|?]]; [contradiction..|lia]]
            | intros _; eexists; split; reflexivity]).
Qed.

(** C4 as stated fails: with three electrodes in the reference profile and
    one of their voltages in the readings, the validator computes a result
    over the voltages 1, 0, 0. *)
Lemma missing_voltages_are_read_as_zero :
  length (listed_electrodes three_electrode_profile) = 3%nat
  /\ length (matched_electrodes one_voltage_readings three_electrode_profile)
     = 1%nat
  /\ is_sentinel (@cross_validation_check sqrt_down_instance
                    one_voltage_readings three_electrode_profile "tulsi")
     = false
  /\ actual <$> electrode_comparison
                  (@cross_validation_check sqrt_down_instance
                     one_voltage_readings three_electrode_profile "tulsi")
     = Some [1; 0; 0].
Proof. repeat split; vm_compute; reflexivity. Qed.

(** ** Cross validation: the composite score *)

Lemma corrcoef_unit `{NpSqrt} (x y : list Q) :
  at_most_one_or_nan (np_corrcoef x y).
Proof. unfold np_corrcoef. apply clip_unit. Qed.

Lemma relative_errors_nonneg (actual_values expected_values : list Q) :
  Forall nonneg_or_nan
    (zip_with (fun a e => F.mul (F.abs (F.div (Fin (a - e)) (Fin e))) (Fin 100))
       actual_values expected_values).
Proof.
  revert expected_values.
  induction actual_values as [|a l IH]; intros [|e l'];
    cbn [zip_with]; constructor.
  - apply mul_pos_nonneg; [reflexivity | apply abs_nonneg].
  - apply IH.
Qed.

(** C8. Whenever the validator computes a result, the three clamped terms
    are rationals of the unit interval, the score is 30 times the first
    plus 30 times the second plus 40 times the third, it lies between 0
    and 100, and the status is the bucket of the score at 80, 60, 40, 20. *)
Theorem validation_score_formula_range_status `{NpSqrt}
    (current_readings : gmap string Q)
    (reference_profile : gmap string (gmap string Q)) (herb : string) :
  let result := cross_validation_check current_readings reference_profile herb in
  is_sentinel result = false ->
  exists m c r e q,
    metrics result = Some m
    /\ F.max (Fin 0) (correlation m) = Fin c
    /\ F.max (Fin 0) (F.sub (Fin 1) (normalized_rmse m)) = Fin r
    /\ F.max (Fin 0)
         (F.sub (Fin 1) (F.div (mean_relative_error m) (Fin 100))) = Fin e
    /\ validation_score result = Fin q
    /\ q == 30 * c + 30 * r + 40 * e
    /\ 0 <= q <= 100
    /\ status result = status_of_score q.
Proof.
  cbv zeta. unfold cross_validation_check.
  destruct (bool_decide (reference_profile = ∅) || bool_decide (current_readings = ∅));
    [discriminate|].
  destruct (collect_electrodes _ current_readings electrodes)
    as [expected_values actual_values].
  destruct (length expected_values <? 3)%nat; [discriminate|].
  intros _. cbn [metrics validation_score status correlation normalized_rmse
                 mean_relative_error].
  set (corr := np_corrcoef expected_values actual_values).
  set (nrmse := F.div (Fin (np_sqrt _)) (Fin (Np.amax _ - Np.amin _))).
  set (mre := F.mean _).
  destruct (max_zero_unit corr (corrcoef_unit _ _)) as (c & Hc & Hc01).
  assert (Hnrmse : nonneg_or_nan nrmse).
  { apply div_nonneg; [apply np_sqrt_nonneg|].
    pose proof (amin_le_amax expected_values). lra. }
  destruct (max_zero_unit _ (one_minus_nonneg nrmse Hnrmse)) as (r & Hr & Hr01).
  assert (Hmre : nonneg_or_nan (F.div mre (Fin 100))).
  { apply div_pos_nonneg; [lra|]. apply mean_nonneg.
    apply relative_errors_nonneg. }
  destruct (max_zero_unit _ (one_minus_nonneg _ Hmre)) as (e & He & He01).
  exists {| correlation := corr; normalized_rmse := nrmse;
            mean_relative_error := mre |}, c, r, e, (c * 30 + r * 30 + e * 40).
  cbn [correlation normalized_rmse mean_relative_error].
  rewrite Hc, Hr, He. cbn [F.mul F.add].
  repeat split; try reflexivity; try ring; lra.
Qed.

(** C8 at three matched electrodes. *)
Lemma validation_score_formula_range_status_witness :
  let result := @cross_validation_check sqrt_down_instance
                  three_voltage_readings three_electrode_profile "tulsi" in
  exists m c r e q,
    metrics result = Some m
    /\ F.max (Fin 0) (correlation m) = Fin c
    /\ F.max (Fin 0) (F.sub (Fin 1) (normalized_rmse m)) = Fin r
    /\ F.max (Fin 0)
         (F.sub (Fin 1) (F.div (mean_relative_error m) (Fin 100))) = Fin e
    /\ validation_score result = Fin q
    /\ q == 30 * c + 30 * r + 40 * e
    /\ 0 <= q <= 100
    /\ status result = status_of_score q.
Proof.
  apply (@validation_score_formula_range_status sqrt_down_instance
           three_voltage_readings three_electrode_profile "tulsi").
  vm_compute. reflexivity.
Defined.

(** ** Denominators *)

Lemma sum_app (l1 l2 : list Q) : Np.sum (l1 ++ l2) == Np.sum l1 + Np.sum l2.
Proof.
  induction l1 as [|x l1 IH]; simpl; [ring | rewrite IH; ring].
Qed.

Lemma arange_S (n : nat) :
  Np.arange (S n) = (Np.arange n ++ [Py.of_nat n])%list.
Proof. unfold Np.arange. rewrite seq_S, map_app. reflexivity. Qed.

Lemma sum_arange (n : nat) :
  Np.sum (Np.arange n) == Py.of_nat n * (Py.of_nat n - 1) / 2.
Proof.
  induction n as [|n IH].
  - reflexivity.
  - rewrite arange_S, sum_app, IH, of_nat_S. simpl. field.
Qed.

Lemma sum_squares_arange (n : nat) :
  Np.sum (Np.mul (Np.arange n) (Np.arange n))
  == (Py.of_nat n - 1) * Py.of_nat n * (2 * Py.of_nat n - 1) / 6.
Proof.
  induction n as [|n IH].
  - reflexivity.
  - rewrite arange_S. unfold Np.mul in *.
    rewrite zip_with_app by reflexivity.
    rewrite sum_app, IH, of_nat_S. simpl. field.
Qed.

(** The denominator of the least-squares slope over [np.arange(n)] is
    n^2 (n^2 - 1) / 12: positive from two points on, though never floored. *)
Lemma linear_trend_denominator (n : nat) :
  Py.of_nat n * Np.sum (Np.mul (Np.arange n) (Np.arange n))
  - Np.sum (Np.arange n) * Np.sum (Np.arange n)
  == Py.of_nat n * Py.of_nat n * (Py.of_nat n * Py.of_nat n - 1) / 12.
Proof. rewrite sum_squares_arange, sum_arange. field. Qed.

Lemma linear_trend_denominator_pos (n : nat) :
  (2 <= n)%nat ->
  0 < Py.of_nat n * Np.sum (Np.mul (Np.arange n) (Np.arange n))
      - Np.sum (Np.arange n) * Np.sum (Np.arange n).
Proof.
  intros Hn. rewrite linear_trend_denominator.
  assert (Hq : 2 <= Py.of_nat n).
  { unfold Py.of_nat. change 2 with (inject_Z 2). rewrite <- Zle_Qle. lia. }
  set (q := Py.of_nat n) in *.
  assert (Hqq : 4 <= q * q).
  { assert (H1 : 0 <= (q - 2) * (q - 2)) by (apply Qmult_le_0_compat; lra).
    assert (H2 : (q - 2) * (q - 2) == q * q - 4 * q + 4) by ring.
    lra. }
  apply Qlt_shift_div_l; [reflexivity|].
  assert (H3 : 0 < q * q * (q * q - 1)) by (apply Qmult_lt_0_compat; lra).
  lra.
Qed.

(** The two floored denominators. *)
Lemma cusum_denominator_pos (std_dev : Q) : 0 < Py.max std_dev 0.000001.
Proof. pose proof (max_ge_r std_dev 0.000001). lra. Qed.

Lemma maintenance_denominator_pos (trend : Q) : 0 < Py.max trend 0.0000000001.
Proof. pose proof (max_ge_r trend 0.0000000001). lra. Qed.

(** C3, at its failing inputs. The validator divides the RMSE by
    max - min of the expected values and the errors by the expected values
    themselves, neither floored: with identical expected values the
    normalized RMSE is not a finite number, and with an expected value of
    zero the mean relative error is infinite. *)
Theorem cross_validation_divides_by_zero `{NpSqrt} :
  (exists m,
      metrics (cross_validation_check flat_readings flat_profile "tulsi")
      = Some m
      /\ F.is_finite (normalized_rmse m) = false)
  /\ (exists m,
      metrics (cross_validation_check three_voltage_readings zero_profile
                 "tulsi")
      = Some m
      /\ mean_relative_error m = PInf).
Proof.
  split.
  - unfold cross_validation_check.
    replace (bool_decide (flat_profile = ∅) || bool_decide (flat_readings = ∅))
      with false by (vm_compute; reflexivity).
    replace (collect_electrodes _ flat_readings electrodes)
      with ([1; 1; 1], [1; 1; 1]) by (vm_compute; reflexivity).
    cbn [length Nat.ltb Nat.leb metrics].
    eexists. split; [reflexivity|]. cbn [normalized_rmse].
    unfold F.div.
    replace (Qeq_bool (Np.amax [1; 1; 1] - Np.amin [1; 1; 1]) 0)
      with true by (vm_compute; reflexivity).
    unfold F.signed_inf.
    destruct (Qeq_bool _ 0); [reflexivity|].
    destruct (Py.ltb 0 _); reflexivity.
  - unfold cross_validation_check.
    replace (bool_decide (zero_profile = ∅)
             || bool_decide (three_voltage_readings = ∅))
      with false by (vm_compute; reflexivity).
    replace (collect_electrodes _ three_voltage_readings electrodes)
      with ([0; 1; 2], [1.1; 1.9; 3.2]) by (vm_compute; reflexivity).
    cbn [length Nat.ltb Nat.leb metrics].
    eexists. split; [reflexivity|]. cbn [mean_relative_error].
    vm_compute. reflexivity.
Qed.

(** With the executable square root the correlation of the flat profile
    is NaN as well: its covariance, zero, is divided by a zero deviation. *)
Lemma flat_profile_correlation_is_nan :
  correlation <$> metrics (@cross_validation_check sqrt_down_instance
                             flat_readings flat_profile "tulsi")
  = Some NaN.
Proof. vm_compute. reflexivity. Qed.

(** ** Sums over the index array *)

Lemma index_sum_snoc (y : list Q) (b : Q) :
  index_sum (y ++ [b]) == index_sum y + Py.of_nat (length y) * b.
Proof.
  unfold index_sum, Np.mul.
  rewrite length_app. cbn [length]. rewrite Nat.add_1_r, arange_S.
  rewrite zip_with_app by apply length_arange.
  rewrite sum_app. simpl. ring.
Qed.

Lemma sum_arange_S (n : nat) :
  Np.sum (Np.arange (S n)) == Np.sum (Np.arange n) + Py.of_nat n.
Proof. rewrite arange_S, sum_app. simpl. ring. Qed.

(** ** Predictive maintenance *)

Lemma read_timestamps_present `{FloatArith} (history : list HistoryEntry) :
  has_timestamps history -> exists ts, read_timestamps history = Ok ts.
Proof.
  induction 1 as [|e rest [t Ht] _ [ts IH]]; [eexists; reflexivity|].
  cbn [read_timestamps]. rewrite Ht, IH. eexists. reflexivity.
Qed.

Lemma read_timestamps_missing `{FloatArith} (history : list HistoryEntry) :
  ~ has_timestamps history ->
  read_timestamps history = Raise (KeyError "timestamp").
Proof.
  induction history as [|e rest IH]; intros Hmissing.
  - exfalso. apply Hmissing. constructor.
  - cbn [read_timestamps].
    destruct (timestamp e) as [t|] eqn:Ht; [|reflexivity].
    rewrite IH; [reflexivity|].
    intros Hrest. apply Hmissing.
    constructor; [eexists; exact Ht | exact Hrest].
Qed.

Lemma num_ltb_asym `{FloatLaws} (a b : pynum) :
  PyNum.ltb a b = true -> PyNum.ltb b a = false.
Proof.
  destruct a as [a|a], b as [b|b]; cbn [PyNum.ltb];
    try apply float_lt_asym.
  intros Hab. apply Z.ltb_lt in Hab. apply Z.ltb_ge. lia.
Qed.

Lemma num_ltb_irrefl `{FloatLaws} (a : pynum) : PyNum.ltb a a = false.
Proof.
  destruct (PyNum.ltb a a) eqn:E; [|reflexivity].
  pose proof (num_ltb_asym a a E). congruence.
Qed.

Lemma max_one_floored `{FloatArith} (x : float) :
  floored_at_one (PyNum.max_one x).
Proof.
  unfold PyNum.max_one.
  destruct (float_lt (float_of_int 1) x) eqn:E; [exact E | reflexivity].
Qed.

Lemma metric_estimate_floored `{FloatArith}
    (values : list float) (threshold : float) :
  Forall floored_at_one (option_list (metric_estimate values threshold)).
Proof.
  unfold metric_estimate.
  destruct (float_lt _ _ && float_lt _ threshold); cbn [option_list];
    repeat constructor.
  apply max_one_floored.
Qed.

Lemma applicable_estimates_floored `{FloatArith}
    (history : list HistoryEntry) :
  Forall floored_at_one (applicable_estimates history).
Proof.
  unfold applicable_estimates. apply Forall_app.
  split; apply metric_estimate_floored.
Qed.

(** The dictionary [maintenance_predictions] holds the applicable
    estimates. *)
Lemma days_to_limit_estimate `{FloatArith}
    (values : list float) (threshold : float) :
  days_to_limit
    (Rounded._calculate_linear_trend (Int64.arange (length values)) values)
    (List.last values (float_of_int 0)) threshold
  = option_list (metric_estimate values threshold).
Proof.
  unfold days_to_limit, metric_estimate.
  destruct (float_lt _ _ && float_lt _ threshold); reflexivity.
Qed.

(** [min] over the dictionary, which holds at most two estimates. *)
Lemma maintenance_days_minimum `{FloatLaws} (first second : option pynum) :
  let l := (option_list first ++ option_list second)%list in
  (l = [] -> maintenance_days l = PyInt 90)
  /\ (l <> [] -> is_minimum (maintenance_days l) l).
Proof.
  cbv zeta. unfold maintenance_days, is_minimum.
  destruct first as [a|], second as [b|]; simpl;
    (split; [intros Hnil; try discriminate; reflexivity|]); intros Hne.
  - unfold PyNum.min. destruct (PyNum.ltb b a) eqn:E.
    + split; [right; left|].
      repeat constructor;
        [apply num_ltb_asym; exact E | apply num_ltb_irrefl].
    + split; [left|].
      repeat constructor; [apply num_ltb_irrefl | exact E].
  - split; [left | repeat constructor; apply num_ltb_irrefl].
  - split; [left | repeat constructor; apply num_ltb_irrefl].
  - contradiction.
Qed.

(** [int] of a number of days floored at one is at least one. *)
Lemma int_of_floored `{FloatLaws} (d : pynum) (z : Z) :
  floored_at_one d -> PyNum.int d = Ok z -> (1 <= z)%Z.
Proof.
  destruct d as [k|x]; cbn [floored_at_one PyNum.int].
  - intros -> [= <-]. lia.
  - apply int_above_one.
Qed.

Lemma length_series `{FloatArith} (history : list HistoryEntry) :
  length (drift_series history) = length history
  /\ length (noise_series history) = length history.
Proof. unfold drift_series, noise_series. rewrite !length_map. auto. Qed.

(** The forecast past its two guards: [int] of the day count, and the
    result built on it. *)
Lemma forecast_unfolded `{FloatArith} {U : Type}
    (history : list HistoryEntry) (usage_data : U) :
  (20 <= length history)%nat -> has_timestamps history ->
  predictive_maintenance_analysis history usage_data
  = Py.bind (PyNum.int (maintenance_days (applicable_estimates history)))
      (fun whole_days =>
         Ok (AnalysisComplete
               {| next_maintenance_days := whole_days;
                  urgency :=
                    maintenance_urgency
                      (maintenance_days (applicable_estimates history));
                  current_performance :=
                    (List.last (drift_series history) (float_of_int 0),
                     List.last (noise_series history) (float_of_int 0));
                  performance_trends :=
                    (Rounded._calculate_linear_trend
                       (Int64.arange (length history)) (drift_series history),
                     Rounded._calculate_linear_trend
                       (Int64.arange (length history))
                       (noise_series history)) |})).
Proof.
  intros Hlen Hts. unfold predictive_maintenance_analysis.
  replace (length history <? 20)%nat with false
    by (symmetry; apply Nat.ltb_ge; exact Hlen).
  destruct (read_timestamps_present history Hts) as [ts ->]. cbn [Py.bind].
  fold (drift_series history). fold (noise_series history).
  destruct (length_series history) as [Hd Hn].
  rewrite Hd. unfold applicable_estimates.
  rewrite <- !days_to_limit_estimate, Hd, Hn. reflexivity.
Qed.

(** [int] of a number of at least one day is at least one. *)
Lemma int_ge_1 (d : Q) : 1 <= d -> (1 <= Py.int d)%Z.
Proof.
  intros Hd. unfold Py.int. unfold Qle in Hd. simpl in Hd.
  apply Z.quot_le_lower_bound; lia.
Qed.

(** Exact arithmetic keeps the laws. *)
Lemma exact_arithmetic_laws : @FloatLaws exact_arithmetic.
Proof.
  split.
  - intros a b Hab. apply ltb_true in Hab. apply ltb_false. lra.
  - intros x z Hx [= <-]. apply ltb_true in Hx.
    change (@float_of_int exact_arithmetic 1) with 1 in Hx.
    apply int_ge_1. lra.
Qed.

(** Binary64 keeps the laws as well: by the specification of its
    comparison, and because the mantissa of a double is normalised. *)
Lemma SFcompare_antisym (x y : SpecFloat.spec_float) :
  SpecFloat.SFcompare y x
  = match SpecFloat.SFcompare x y with
    | Some c => Some (CompOpp c)
    | None => None
    end.
Proof.
  destruct x as [sx|sx| |sx mx ex], y as [sy|sy| |sy my ey];
    cbn [SpecFloat.SFcompare]; try reflexivity;
    try (destruct sx; reflexivity); try (destruct sy; reflexivity);
    try (destruct sx, sy; reflexivity).
  change (PosDef.Pos.compare_cont Eq my mx) with (Pos.compare my mx).
  change (PosDef.Pos.compare_cont Eq mx my) with (Pos.compare mx my).
  rewrite (Z.compare_antisym ex ey), (Pos.compare_antisym mx my).
  destruct sx, sy; try reflexivity;
    destruct (ex ?= ey)%Z; cbn [CompOpp]; try reflexivity;
    destruct (mx ?= my)%positive; reflexivity.
Qed.

Lemma double_lt_asym (a b : PrimFloat.float) :
  PrimFloat.ltb a b = true -> PrimFloat.ltb b a = false.
Proof.
  rewrite !FloatAxioms.ltb_spec. unfold SpecFloat.SFltb.
  rewrite (SFcompare_antisym (FloatOps.Prim2SF a) (FloatOps.Prim2SF b)).
  destruct (SpecFloat.SFcompare (FloatOps.Prim2SF a) (FloatOps.Prim2SF b))
    as [[| |]|]; try discriminate. reflexivity.
Qed.

Lemma digits2_pos_lower (m : positive) :
  (2 ^ (Z.pos (SpecFloat.digits2_pos m) - 1) <= Z.pos m)%Z.
Proof.
  induction m as [m IH|m IH|]; cbn [SpecFloat.digits2_pos].
  - rewrite Pos2Z.inj_succ.
    replace (Z.succ (Z.pos (SpecFloat.digits2_pos m)) - 1)%Z
      with (Z.succ (Z.pos (SpecFloat.digits2_pos m) - 1))%Z by lia.
    rewrite Z.pow_succ_r by lia. lia.
  - rewrite Pos2Z.inj_succ.
    replace (Z.succ (Z.pos (SpecFloat.digits2_pos m)) - 1)%Z
      with (Z.succ (Z.pos (SpecFloat.digits2_pos m) - 1))%Z by lia.
    rewrite Z.pow_succ_r by lia. lia.
  - reflexivity.
Qed.

Lemma double_int_above_one (x : PrimFloat.float) (z : Z) :
  PrimFloat.ltb (Double.of_int64 1) x = true -> Double.int x = Ok z ->
  (1 <= z)%Z.
Proof.
  rewrite FloatAxioms.ltb_spec. unfold Double.int.
  pose proof (FloatAxioms.Prim2SF_valid x) as Hvalid.
  replace (FloatOps.Prim2SF (Double.of_int64 1))
    with (SpecFloat.S754_finite false 4503599627370496 (-52))
    by (vm_compute; reflexivity).
  destruct (FloatOps.Prim2SF x) as [s|s| |s m e];
    unfold SpecFloat.SFltb; cbn [SpecFloat.SFcompare];
    try (intros Hlt Hint; discriminate).
  destruct s; [intros Hlt Hint; discriminate|].
  cbn [SpecFloat.valid_binary] in Hvalid.
  unfold SpecFloat.bounded, SpecFloat.canonical_mantissa in Hvalid.
    apply andb_prop in Hvalid as [Hcanon _]. apply Z.eqb_eq in Hcanon.
    unfold SpecFloat.fexp, SpecFloat.emin in Hcanon.
    change FloatOps.prec with 53%Z in Hcanon.
    change FloatOps.emax with 1024%Z in Hcanon.
    pose proof (Z.max_spec (Z.pos (SpecFloat.digits2_pos m) + e - 53)
                  (3 - 1024 - 53)) as Hmax.
    change IntDef.Z.max with Z.max in Hcanon. rewrite Hcanon in Hmax.
    pose proof (digits2_pos_lower m) as Hdigits.
    assert (Hd : (-52 <= e)%Z ->
                 Z.pos (SpecFloat.digits2_pos m) = 53%Z) by lia.
    destruct (Z.compare_spec (-52) e) as [Heq|Hless|Hmore];
      intros Hcmp [= <-]; [| |discriminate].
    all: assert (He : (-52 <= e)%Z /\ (2 ^ 52 <= Z.pos m)%Z)
      by (rewrite Hd in Hdigits by lia; change (53 - 1)%Z with 52%Z in Hdigits;
          lia).
    all: destruct He as [He Hm]; destruct (0 <=? e)%Z eqn:E0;
      [ apply Z.leb_le in E0;
        assert (0 < 2 ^ e)%Z by (apply Z.pow_pos_nonneg; lia); nia
      | apply Z.leb_gt in E0;
        apply Z.div_le_lower_bound; [apply Z.pow_pos_nonneg; lia|];
        assert (2 ^ (- e) <= 2 ^ 52)%Z by (apply Z.pow_le_mono_r; lia); lia ].
Qed.

Lemma binary64_laws : @FloatLaws binary64.
Proof.
  split.
  - exact double_lt_asym.
  - exact double_int_above_one.
Qed.

(** C9, as the code has it. A history of fewer than 20 entries gets the
    insufficient-data sentinel, whatever its entries hold. From 20 entries
    on, an entry without a timestamp makes the call raise [KeyError];
    otherwise every applicable estimate is floored at one day, the day
    count is a least one of them, or 90 when none applies, and the call
    returns [int] of that count, which is at least 1, or raises what [int]
    raises.  This holds in every arithmetic that keeps the two laws. *)
Theorem maintenance_forecast_is_truncated_minimum `{FloatLaws} {U : Type}
    (history : list HistoryEntry) (usage_data : U) :
  let result := predictive_maintenance_analysis history usage_data in
  let estimates := applicable_estimates history in
  ((length history < 20)%nat -> result = Ok MaintenanceInsufficientData)
  /\ ((20 <= length history)%nat -> ~ has_timestamps history ->
      result = Raise (KeyError "timestamp"))
  /\ ((20 <= length history)%nat -> has_timestamps history ->
      Forall floored_at_one estimates
      /\ exists days,
           (estimates = [] -> days = PyInt 90)
           /\ (estimates <> [] -> is_minimum days estimates)
           /\ match PyNum.int days with
              | Ok whole_days =>
                  (1 <= whole_days)%Z
                  /\ exists p,
                       result = Ok (AnalysisComplete p)
                       /\ next_maintenance_days p = whole_days
              | Raise e => result = Raise e
              end).
Proof.
  cbv zeta. split; [|split].
  - intros Hlen. unfold predictive_maintenance_analysis.
    replace (length history <? 20)%nat with true
      by (symmetry; apply Nat.ltb_lt; exact Hlen).
    reflexivity.
  - intros Hlen Hmissing. unfold predictive_maintenance_analysis.
    replace (length history <? 20)%nat with false
      by (symmetry; apply Nat.ltb_ge; exact Hlen).
    rewrite (read_timestamps_missing history Hmissing). reflexivity.
  - intros Hlen Hts.
    pose proof (applicable_estimates_floored history) as Hfloor.
    split; [exact Hfloor|].
    rewrite (forecast_unfolded history usage_data Hlen Hts).
    exists (maintenance_days (applicable_estimates history)).
    destruct (maintenance_days_minimum
                (metric_estimate (drift_series history) (float_literal 0.05))
                (metric_estimate (noise_series history) (float_literal 0.01)))
      as [Hnone Hsome].
    fold (applicable_estimates history) in Hnone, Hsome.
    split; [exact Hnone|]. split; [exact Hsome|].
    destruct (PyNum.int (maintenance_days (applicable_estimates history)))
      as [whole_days|e] eqn:Hint; cbn [Py.bind]; [|reflexivity].
    split; [|eexists; split; reflexivity].
    destruct (applicable_estimates history) as [|d l] eqn:Hest.
    + rewrite (Hnone eq_refl) in Hint. injection Hint as <-. lia.
    + destruct (Hsome ltac:(discriminate)) as [Hin _].
      apply (int_of_floored (maintenance_days (d :: l))); [|exact Hint].
      rewrite Forall_forall in Hfloor. apply Hfloor. exact Hin.
Qed.

(** C9 on the slowly drifting history, in binary64. *)
Lemma maintenance_forecast_is_truncated_minimum_witness :
  let result :=
    @predictive_maintenance_analysis binary64 unit slow_drift_history64 tt in
  let estimates := @applicable_estimates binary64 slow_drift_history64 in
  ((length slow_drift_history64 < 20)%nat ->
   result = Ok MaintenanceInsufficientData)
  /\ ((20 <= length slow_drift_history64)%nat ->
      ~ has_timestamps slow_drift_history64 ->
      result = Raise (KeyError "timestamp"))
  /\ ((20 <= length slow_drift_history64)%nat ->
      has_timestamps slow_drift_history64 ->
      Forall floored_at_one estimates
      /\ exists days,
           (estimates = [] -> days = PyInt 90)
           /\ (estimates <> [] -> is_minimum days estimates)
           /\ match PyNum.int days with
              | Ok whole_days =>
                  (1 <= whole_days)%Z
                  /\ exists p,
                       result = Ok (AnalysisComplete p)
                       /\ next_maintenance_days p = whole_days
              | Raise e => result = Raise e
              end).
Proof.
  exact (@maintenance_forecast_is_truncated_minimum binary64 binary64_laws
           unit slow_drift_history64 tt).
Defined.

(** C9 as stated fails: on this history the one applicable estimate, and
    so the minimum, is 6.6 days, and the forecast returned is 6. *)
Lemma forecast_truncates_the_minimum :
  length slow_drift_history = 20%nat
  /\ has_timestamps slow_drift_history
  /\ (exists d, @applicable_estimates exact_arithmetic slow_drift_history
                = [PyFloat d]
                /\ d == 6.6)
  /\ exists p,
       @predictive_maintenance_analysis exact_arithmetic unit
         slow_drift_history tt
       = Ok (AnalysisComplete p)
       /\ next_maintenance_days p = 6%Z
       /\ ~ inject_Z (next_maintenance_days p) == 6.6.
Proof.
  split; [reflexivity|]. split; [|split].
  - unfold slow_drift_history. apply Forall_map, Forall_forall.
    intros i _. eexists. reflexivity.
  - eexists. split; [vm_compute; reflexivity|]. vm_compute. reflexivity.
  - eexists. split; [vm_compute; reflexivity|].
    split; [reflexivity|]. vm_compute. discriminate.
Qed.

(** The same history in binary64: the estimate is a float just above 6.6
    and the forecast is 6 as well. *)
Lemma forecast_truncates_in_binary64 :
  exists p,
    @predictive_maintenance_analysis binary64 unit slow_drift_history64 tt
    = Ok (AnalysisComplete p)
    /\ next_maintenance_days p = 6%Z
    /\ urgency p = critical.
Proof. eexists. split; [vm_compute; reflexivity|]. split; reflexivity. Qed.

(** What the rounding of the sums decides.  On twenty-four entries at the
    same drift rate, 0.01, the exact slope is zero, no estimate applies
    and the forecast is 90 days; in binary64 the slope comes out as a
    positive 5e-19, the guard 1e-10 takes its place, and the forecast is
    (0.05 - 0.01) / 1e-10 = 400000000 days. *)
Lemma level_history_by_arithmetic :
  (exists p,
      @predictive_maintenance_analysis exact_arithmetic unit level_history tt
      = Ok (AnalysisComplete p)
      /\ next_maintenance_days p = 90%Z)
  /\ (exists p,
      @predictive_maintenance_analysis binary64 unit level_history64 tt
      = Ok (AnalysisComplete p)
      /\ next_maintenance_days p = 400000000%Z
      /\ PrimFloat.ltb PrimFloat.zero (fst (performance_trends p)) = true).
Proof.
  split.
  - eexists. split; [vm_compute; reflexivity | reflexivity].
  - eexists. split; [vm_compute; reflexivity|]. split; reflexivity.
Qed.

(** On the rising history the exact estimate is 7 days, at high urgency;
    in binary64 the slope is a little above 0.0004, the estimate a little
    below 7, and the forecast is 6 days at critical urgency. *)
Lemma rising_history_by_arithmetic :
  (exists p,
      @predictive_maintenance_analysis exact_arithmetic unit rising_history tt
      = Ok (AnalysisComplete p)
      /\ next_maintenance_days p = 7%Z /\ urgency p = high)
  /\ (exists p,
      @predictive_maintenance_analysis binary64 unit rising_history64 tt
      = Ok (AnalysisComplete p)
      /\ next_maintenance_days p = 6%Z /\ urgency p = critical).
Proof.
  split; (eexists; split; [vm_compute; reflexivity|]; split; reflexivity).
Qed.

(** [int] can fail on finite rates: here the estimate overflows to
    infinity, and the call raises [OverflowError]. *)
Lemma forecast_overflows_in_binary64 :
  @predictive_maintenance_analysis binary64 unit cancelling_history64 tt
  = Raise OverflowError.
Proof. vm_compute. reflexivity. Qed.

(** A metric whose latest value is not below its limit yields no
    estimate: with neither the latest drift rate below 0.05 nor the
    latest noise level below 0.01 the forecast is the fallback, 90 days at
    medium urgency, in every arithmetic. *)
Theorem forecast_past_both_limits_is_ninety_days `{FloatArith} {U : Type}
    (history : list HistoryEntry) (usage_data : U) :
  (20 <= length history)%nat ->
  has_timestamps history ->
  float_lt (List.last (drift_series history) (float_of_int 0))
           (float_literal 0.05) = false ->
  float_lt (List.last (noise_series history) (float_of_int 0))
           (float_literal 0.01) = false ->
  exists p,
    predictive_maintenance_analysis history usage_data
    = Ok (AnalysisComplete p)
    /\ next_maintenance_days p = 90%Z
    /\ urgency p = medium.
Proof.
  intros Hlen Hts Hdrift Hnoise.
  rewrite (forecast_unfolded history usage_data Hlen Hts).
  unfold applicable_estimates, metric_estimate.
  rewrite Hdrift, Hnoise, !andb_false_r. cbn [option_list app].
  eexists. split; [reflexivity|]. split; reflexivity.
Qed.

Lemma forecast_past_both_limits_is_ninety_days_witness :
  exists p,
    @predictive_maintenance_analysis exact_arithmetic unit worn_out_history tt
    = Ok (AnalysisComplete p)
    /\ next_maintenance_days p = 90%Z
    /\ urgency p = medium.
Proof.
  apply (@forecast_past_both_limits_is_ninety_days exact_arithmetic unit
           worn_out_history tt).
  - simpl. lia.
  - apply Forall_replicate_intro. eexists. reflexivity.
  - vm_compute. reflexivity.
  - vm_compute. reflexivity.
Defined.

(** ** Further properties of the detector *)

(** Fewer than ten readings get the insufficient-data dictionary, and no
    lookup is made: an unknown electrode type does not raise here. *)
Theorem short_series_is_insufficient `{NpSqrt}
    (series : list Q) (sensor_type : string) (electrode_type : option string) :
  (length series < 10)%nat ->
  detect_sensor_drift series sensor_type electrode_type = Ok InsufficientData.
Proof.
  intros Hlen. unfold detect_sensor_drift.
  replace (length series <? 10)%nat with true
    by (symmetry; apply Nat.ltb_lt; exact Hlen).
  reflexivity.
Qed.

Lemma short_series_is_insufficient_witness :
  @detect_sensor_drift sqrt_down_instance [1; 2; 3] "electrode" (Some "Au")
  = Ok InsufficientData.
Proof.
  apply (@short_series_is_insufficient sqrt_down_instance
           [1; 2; 3] "electrode" (Some "Au")).
  simpl. lia.
Defined.

(** The recommendation, in its order of precedence: no drift; drift with
    confidence below 0.6; confident drift faster than 0.01; otherwise. *)
Theorem recommendation_precedence (detected : bool) (confidence rate : Q) :
  let r := _generate_drift_recommendation detected confidence rate in
  (detected = false ->
   rec_action r = monitor /\ rec_urgency r = low
   /\ next_check_hours r = 24%Z)
  /\ (detected = true -> confidence < 0.6 ->
      rec_action r = increase_monitoring /\ rec_urgency r = medium
      /\ next_check_hours r = 4%Z)
  /\ (detected = true -> 0.6 <= confidence -> 0.01 < Qabs rate ->
      rec_action r = immediate_calibration /\ rec_urgency r = high
      /\ next_check_hours r = 1%Z)
  /\ (detected = true -> 0.6 <= confidence -> Qabs rate <= 0.01 ->
      rec_action r = schedule_calibration /\ rec_urgency r = medium
      /\ next_check_hours r = 8%Z).
Proof.
  cbv zeta. unfold _generate_drift_recommendation.
  split; [|split; [|split]].
  - intros ->. cbn. auto.
  - intros -> Hc. cbn [negb].
    replace (Py.ltb confidence 0.6) with true
      by (symmetry; apply ltb_true; exact Hc).
    cbn. auto.
  - intros -> Hc Hr. cbn [negb].
    replace (Py.ltb confidence 0.6) with false
      by (symmetry; apply ltb_false; exact Hc).
    replace (Py.ltb 0.01 (Qabs rate)) with true
      by (symmetry; apply ltb_true; exact Hr).
    cbn. auto.
  - intros -> Hc Hr. cbn [negb].
    replace (Py.ltb confidence 0.6) with false
      by (symmetry; apply ltb_false; exact Hc).
    replace (Py.ltb 0.01 (Qabs rate)) with false
      by (symmetry; apply ltb_false; exact Hr).
    cbn. auto.
Qed.

Lemma length_diff (l : list Q) : length (Np.diff l) = (length l - 1)%nat.
Proof.
  induction l as [|x l IH]; [reflexivity|].
  destruct l as [|y l]; [reflexivity|].
  cbn [Np.diff length] in *. rewrite IH. lia.
Qed.

(** ** The int64 arithmetic of the index array *)

Lemma wrap_small (z : Z) :
  (- 2 ^ 63 <= z < 2 ^ 63)%Z -> Int64.wrap z = z.
Proof.
  intros Hz. unfold Int64.wrap. rewrite Z.mod_small; lia.
Qed.

Lemma wrap_mod (z : Z) : (Int64.wrap z mod 2 ^ 64 = z mod 2 ^ 64)%Z.
Proof.
  unfold Int64.wrap. rewrite Zminus_mod_idemp_l. f_equal. lia.
Qed.

Lemma wrap_congruent (a b : Z) :
  (a mod 2 ^ 64 = b mod 2 ^ 64)%Z -> Int64.wrap a = Int64.wrap b.
Proof.
  intros Hab. unfold Int64.wrap.
  rewrite (Z.add_mod a), (Z.add_mod b), Hab by lia. reflexivity.
Qed.

Lemma wrap_add_l (a b : Z) : Int64.wrap (Int64.wrap a + b) = Int64.wrap (a + b).
Proof.
  apply wrap_congruent.
  rewrite Z.add_mod, wrap_mod, <- Z.add_mod by lia. reflexivity.
Qed.

Lemma wrap_add_r (a b : Z) : Int64.wrap (a + Int64.wrap b) = Int64.wrap (a + b).
Proof. rewrite Z.add_comm, wrap_add_l, Z.add_comm. reflexivity. Qed.

Lemma wrap_mul (a b : Z) :
  Int64.wrap (Int64.wrap a * Int64.wrap b) = Int64.wrap (a * b).
Proof.
  apply wrap_congruent.
  rewrite Z.mul_mod, !wrap_mod, <- Z.mul_mod by lia. reflexivity.
Qed.

Lemma wrap_mul_r (a b : Z) : Int64.wrap (a * Int64.wrap b) = Int64.wrap (a * b).
Proof.
  apply wrap_congruent.
  rewrite Z.mul_mod, wrap_mod, <- Z.mul_mod by lia. reflexivity.
Qed.

Lemma wrap_sub (a b : Z) :
  Int64.wrap (Int64.wrap a - Int64.wrap b) = Int64.wrap (a - b).
Proof.
  apply wrap_congruent.
  rewrite Zminus_mod, !wrap_mod, <- Zminus_mod. reflexivity.
Qed.

(** The sum of a list of integers, unbounded. *)
Lemma int64_sum_from (l : list Z) (acc : Z) :
  fold_left Int64.add l (Int64.wrap acc)
  = Int64.wrap (acc + fold_right Z.add 0%Z l).
Proof.
  revert acc. induction l as [|x l IH]; intros acc; cbn [fold_left fold_right].
  - f_equal. lia.
  - unfold Int64.add at 2. rewrite wrap_add_l, IH. f_equal. lia.
Qed.

Lemma int64_sum (l : list Z) :
  Int64.sum l = Int64.wrap (fold_right Z.add 0%Z l).
Proof.
  unfold Int64.sum. change 0%Z with (Int64.wrap 0) at 1.
  rewrite int64_sum_from. reflexivity.
Qed.

Lemma int64_sum_of_wrapped (l : list Z) (acc : Z) :
  fold_left Int64.add (map Int64.wrap l) acc = fold_left Int64.add l acc.
Proof.
  revert acc. induction l as [|x l IH]; intros acc; [reflexivity|].
  cbn [map fold_left]. rewrite IH. f_equal.
  unfold Int64.add. apply wrap_add_r.
Qed.

Lemma index_squares (x : list Z) :
  zip_with Int64.mul x x = map Int64.wrap (map (fun i => i * i)%Z x).
Proof.
  induction x as [|i x IH]; [reflexivity|].
  cbn [zip_with map]. rewrite IH. reflexivity.
Qed.

Lemma sum_indices (n : nat) :
  (2 * fold_right Z.add 0 (Int64.arange n)
   = Z.of_nat n * (Z.of_nat n - 1))%Z.
Proof.
  unfold Int64.arange. induction n as [|n IH]; [reflexivity|].
  rewrite seq_S, map_app, fold_right_app. cbn [map fold_right Nat.add].
  assert (Hshift : forall (l : list Z) (c : Z),
             fold_right Z.add c l = (c + fold_right Z.add 0 l)%Z).
  { intros l c. induction l as [|y l IHl]; cbn [fold_right]; lia. }
  rewrite Hshift. lia.
Qed.

Lemma sum_index_squares (n : nat) :
  (6 * fold_right Z.add 0 (map (fun i => i * i) (Int64.arange n))
   = (Z.of_nat n - 1) * Z.of_nat n * (2 * Z.of_nat n - 1))%Z.
Proof.
  unfold Int64.arange. induction n as [|n IH]; [reflexivity|].
  rewrite seq_S, !map_app, fold_right_app. cbn [map fold_right Nat.add].
  assert (Hshift : forall (l : list Z) (c : Z),
             fold_right Z.add c l = (c + fold_right Z.add 0 l)%Z).
  { intros l c. induction l as [|y l IHl]; cbn [fold_right]; lia. }
  rewrite Hshift. nia.
Qed.

(** Modulo 2^64 the denominator is n^2 (n^2 - 1) / 12, whatever wraps on
    the way. *)
Lemma slope_denominator_modulo (n : nat) :
  slope_denominator n
  = Int64.wrap (Z.of_nat n ^ 2 * (Z.of_nat n ^ 2 - 1) / 12).
Proof.
  unfold slope_denominator, Int64.sub, Int64.mul.
  rewrite index_squares. unfold Int64.sum at 1.
  rewrite int64_sum_of_wrapped. fold (Int64.sum (map (fun i => i * i)%Z
                                                   (Int64.arange n))).
  rewrite !int64_sum, wrap_mul_r, wrap_mul, wrap_sub.
  pose proof (sum_indices n) as H1. pose proof (sum_index_squares n) as H2.
  set (s1 := fold_right Z.add 0%Z (Int64.arange n)) in *.
  set (s2 := fold_right Z.add 0%Z (map (fun i => (i * i)%Z) (Int64.arange n)))
    in *.
  set (m := Z.of_nat n) in *.
  f_equal. apply Z.div_unique_exact; [lia|]. nia.
Qed.

Lemma slope_denominator_in_range (n : nat) :
  (2 <= Z.of_nat n <= 102569)%Z ->
  (0 < Z.of_nat n ^ 2 * (Z.of_nat n ^ 2 - 1) / 12 < 2 ^ 63)%Z
  /\ (12 * (Z.of_nat n ^ 2 * (Z.of_nat n ^ 2 - 1) / 12)
      = Z.of_nat n ^ 2 * (Z.of_nat n ^ 2 - 1))%Z.
Proof.
  intros Hn.
  pose proof (sum_indices n) as H1. pose proof (sum_index_squares n) as H2.
  set (s1 := fold_right Z.add 0%Z (Int64.arange n)) in *.
  set (s2 := fold_right Z.add 0%Z (map (fun i => (i * i)%Z) (Int64.arange n)))
    in *.
  set (m := Z.of_nat n) in *.
  assert (Hm : (2 <= m <= 102569)%Z) by exact Hn.
  assert (Hexact : (m ^ 2 * (m ^ 2 - 1)
                    = 12 * (m * s2 - s1 * s1))%Z) by nia.
  rewrite Hexact, Z.mul_comm, Z.div_mul by lia.
  assert (Hsq : (4 <= m ^ 2 <= 102569 ^ 2)%Z) by nia.
  set (q := (m ^ 2)%Z) in *.
  split; [|lia].
  assert (Hprod : (12 <= q * (q - 1) <= 102569 ^ 2 * (102569 ^ 2 - 1))%Z)
    by nia.
  lia.
Qed.

(** The denominator of the slope is what it should be, n^2 (n^2 - 1) / 12
    and positive, for 2 <= n <= 102569; at n = 102570 the int64
    arithmetic has wrapped and the denominator is negative. *)
Theorem slope_denominator_is_exact_up_to_102569 (n : nat) :
  (2 <= Z.of_nat n <= 102569)%Z ->
  slope_denominator n = (Z.of_nat n ^ 2 * (Z.of_nat n ^ 2 - 1) / 12)%Z
  /\ (0 < slope_denominator n)%Z
  /\ slope_denominator (Z.to_nat 102570) = (- 9223150119427601191)%Z.
Proof.
  intros Hn. destruct (slope_denominator_in_range n Hn) as [Hrange _].
  rewrite slope_denominator_modulo, wrap_small by lia.
  split; [reflexivity|]. split; [lia|].
  rewrite slope_denominator_modulo, Z2Nat.id by lia. reflexivity.
Qed.

Lemma slope_denominator_is_exact_up_to_102569_witness :
  let n := Z.to_nat 102569 in
  slope_denominator n = (Z.of_nat n ^ 2 * (Z.of_nat n ^ 2 - 1) / 12)%Z
  /\ (0 < slope_denominator n)%Z
  /\ slope_denominator (Z.to_nat 102570) = (- 9223150119427601191)%Z.
Proof.
  apply (slope_denominator_is_exact_up_to_102569 (Z.to_nat 102569)).
  rewrite Z2Nat.id; lia.
Defined.

(** ** The slope of an exactly linear series *)

Lemma ramp_S (a b : Q) (n : nat) :
  ramp a b (S n) = (ramp a b n ++ [a + b * Py.of_nat n])%list.
Proof. unfold ramp. rewrite seq_S, map_app. reflexivity. Qed.

Lemma length_ramp (a b : Q) (n : nat) : length (ramp a b n) = n.
Proof. unfold ramp. rewrite length_map, length_seq. reflexivity. Qed.

Lemma sum_ramp (a b : Q) (n : nat) :
  Np.sum (ramp a b n) == Py.of_nat n * a + b * Np.sum (Np.arange n).
Proof.
  induction n as [|n IH].
  - change (Py.of_nat 0) with 0. simpl. ring.
  - rewrite ramp_S, sum_app, IH, sum_arange_S, of_nat_S. simpl. ring.
Qed.

Lemma sum_squares_arange_S (n : nat) :
  Np.sum (Np.mul (Np.arange (S n)) (Np.arange (S n)))
  == Np.sum (Np.mul (Np.arange n) (Np.arange n)) + Py.of_nat n * Py.of_nat n.
Proof.
  rewrite arange_S. unfold Np.mul. rewrite zip_with_app by reflexivity.
  rewrite sum_app. simpl. ring.
Qed.

Lemma index_sum_ramp (a b : Q) (n : nat) :
  index_sum (ramp a b n)
  == a * Np.sum (Np.arange n)
     + b * Np.sum (Np.mul (Np.arange n) (Np.arange n)).
Proof.
  induction n as [|n IH].
  - unfold index_sum. simpl. ring.
  - rewrite ramp_S, index_sum_snoc, IH, length_ramp.
    rewrite sum_arange_S, sum_squares_arange_S. ring.
Qed.

Lemma linear_trend_recovers_slope_aux (a b : Q) (n : nat) :
  (2 <= n)%nat ->
  _calculate_linear_trend (Np.arange n) (ramp a b n) == b.
Proof.
  intros Hn. unfold _calculate_linear_trend. rewrite length_arange.
  replace (n <? 2)%nat with false by (symmetry; apply Nat.ltb_ge; exact Hn).
  pose proof (linear_trend_denominator_pos n Hn) as Hden.
  pose proof (index_sum_ramp a b n) as Hxy.
  unfold index_sum in Hxy. rewrite length_ramp in Hxy.
  rewrite Hxy, sum_ramp.
  set (s1 := Np.sum (Np.arange n)) in *.
  set (s2 := Np.sum (Np.mul (Np.arange n) (Np.arange n))) in *.
  field. lra.
Qed.

Lemma length_int64_arange (n : nat) : length (Int64.arange n) = n.
Proof. unfold Int64.arange. rewrite length_map, length_seq. reflexivity. Qed.

Lemma index_products (l : list nat) (y : list Q) :
  zip_with (fun (a : Z) (b : Q) => inject_Z a * b) (map Z.of_nat l) y
  = Np.mul (map Py.of_nat l) y.
Proof.
  revert y. induction l as [|i l IH]; intros [|b y]; try reflexivity.
  cbn [map zip_with Np.mul]. f_equal. apply IH.
Qed.

Lemma int64_sum_indices (n : nat) :
  (Z.of_nat n <= 102569)%Z ->
  inject_Z (Int64.sum (Int64.arange n)) == Np.sum (Np.arange n).
Proof.
  intros Hn. rewrite int64_sum, sum_arange.
  pose proof (sum_indices n) as H1.
  set (s1 := fold_right Z.add 0%Z (Int64.arange n)) in *.
  rewrite wrap_small by nia.
  assert (Hq : inject_Z 2 * inject_Z s1
               == inject_Z (Z.of_nat n) * (inject_Z (Z.of_nat n) - inject_Z 1)).
  { unfold Qminus. rewrite <- inject_Z_opp, <- inject_Z_plus, <- !inject_Z_mult.
    apply inject_Z_injective. lia. }
  unfold Py.of_nat. change (inject_Z 2) with 2 in Hq.
  change (inject_Z 1) with 1 in Hq. field_simplify_eq. lra.
Qed.

Lemma int64_denominator (n : nat) :
  (2 <= Z.of_nat n <= 102569)%Z ->
  inject_Z (slope_denominator n)
  == Py.of_nat n * Np.sum (Np.mul (Np.arange n) (Np.arange n))
     - Np.sum (Np.arange n) * Np.sum (Np.arange n).
Proof.
  intros Hn. destruct (slope_denominator_in_range n Hn) as [Hrange Hexact].
  rewrite slope_denominator_modulo, wrap_small by lia.
  rewrite linear_trend_denominator.
  set (d := (Z.of_nat n ^ 2 * (Z.of_nat n ^ 2 - 1) / 12)%Z) in *.
  assert (Hq : inject_Z 12 * inject_Z d
               == inject_Z (Z.of_nat n) * inject_Z (Z.of_nat n)
                  * (inject_Z (Z.of_nat n) * inject_Z (Z.of_nat n)
                     - inject_Z 1)).
  { unfold Qminus. rewrite <- inject_Z_opp, <- !inject_Z_mult,
      <- inject_Z_plus, <- !inject_Z_mult.
    apply inject_Z_injective. lia. }
  unfold Py.of_nat. change (inject_Z 12) with 12 in Hq.
  change (inject_Z 1) with 1 in Hq. field_simplify_eq. lra.
Qed.

(** In exact arithmetic, and while the int64 denominator has not wrapped,
    the slope over int64 indices is the slope over unbounded ones. *)
Lemma rounded_trend_exact (n : nat) (y : list Q) :
  (Z.of_nat n <= 102569)%Z ->
  @Rounded._calculate_linear_trend exact_arithmetic (Int64.arange n) y
  == _calculate_linear_trend (Np.arange n) y.
Proof.
  intros Hn. unfold Rounded._calculate_linear_trend, _calculate_linear_trend.
  rewrite length_int64_arange, length_arange.
  destruct (n <? 2)%nat eqn:E; [reflexivity|].
  apply Nat.ltb_ge in E.
  fold (slope_denominator n).
  pose proof (index_products (seq 0 n) y) as Hxy.
  fold (Int64.arange n) in Hxy. fold (Np.arange n) in Hxy.
  change (@np_sum_floats exact_arithmetic) with Np.sum.
  change (@float_div exact_arithmetic) with Qdiv.
  change (@float_sub exact_arithmetic) with Qminus.
  change (@float_mul exact_arithmetic) with Qmult.
  change (@float_of_int exact_arithmetic) with inject_Z.
  change (@float exact_arithmetic) with Q.
  rewrite Hxy.
  fold (Py.of_nat n).
  rewrite (int64_sum_indices n Hn), (int64_denominator n) by lia.
  reflexivity.
Qed.

(** Least squares recovers the slope of an exactly linear series, whatever
    its offset: in exact arithmetic, for 2 to 102569 samples, the int64
    denominator being wrong beyond. *)
Theorem linear_trend_recovers_slope (a b : Q) (n : nat) :
  (2 <= Z.of_nat n <= 102569)%Z ->
  @Rounded._calculate_linear_trend exact_arithmetic (Int64.arange n)
    (ramp a b n)
  == b.
Proof.
  intros Hn. rewrite rounded_trend_exact by lia.
  apply linear_trend_recovers_slope_aux. lia.
Qed.

Lemma linear_trend_recovers_slope_witness :
  @Rounded._calculate_linear_trend exact_arithmetic (Int64.arange 12)
    (ramp 2 0.001 12)
  == 0.001.
Proof. apply (linear_trend_recovers_slope 2 0.001 12). lia. Defined.

(** ** The range chart on uniform steps *)

Lemma sum_all_eq (l : list Q) (m : Q) :
  Forall (fun r => r == m) l -> Np.sum l == Py.of_nat (length l) * m.
Proof.
  induction 1 as [|r l Hr _ IH].
  - change (Py.of_nat (length [])) with 0. simpl. ring.
  - cbn [Np.sum length]. rewrite IH, Hr, of_nat_S. ring.
Qed.

Lemma mean_all_eq (l : list Q) (m : Q) :
  l <> [] -> Forall (fun r => r == m) l -> Np.mean l == m.
Proof.
  intros Hne Hall. unfold Np.mean. rewrite (sum_all_eq l m Hall).
  assert (Hlen : 0 < Py.of_nat (length l)).
  { apply of_nat_pos. destruct l; [contradiction | simpl; lia]. }
  field. lra.
Qed.

Lemma moving_range_uniform (l : list Q) (m : Q) :
  0 <= m -> l <> [] -> Forall (fun r => r == m) l ->
  mr_out_of_control (_calculate_moving_range_stats l) = false.
Proof.
  intros Hm Hne Hall.
  unfold _calculate_moving_range_stats; cbn [mr_out_of_control].
  pose proof (mean_all_eq l m Hne Hall) as Hmean.
  unfold Np.where_. rewrite where_from_none; [reflexivity|].
  eapply Forall_impl; [exact Hall|]. intros r Hr. cbv beta.
  apply orb_false_iff. split; apply ltb_false.
  - rewrite Hmean, Hr. unfold mr_d4. lra.
  - apply max_lub; rewrite ?Hmean, Hr; unfold mr_d3; lra.
Qed.

(** A series whose successive steps all have the same magnitude, such as
    a perfect ramp or a perfect zig-zag, never raises the range alarm. *)
Theorem uniform_steps_raise_no_range_alarm (series : list Q) (m : Q) :
  (2 <= length series)%nat ->
  Forall (fun r => r == m) (Np.abs (Np.diff series)) ->
  mr_out_of_control
    (_calculate_moving_range_stats (Np.abs (Np.diff series))) = false.
Proof.
  intros Hlen Hall.
  assert (Hne : Np.abs (Np.diff series) <> []).
  { destruct series as [|x [|y l]]; simpl in Hlen; try lia. discriminate. }
  apply (moving_range_uniform _ m); [|exact Hne | exact Hall].
  destruct (Np.abs (Np.diff series)) as [|r l] eqn:E; [contradiction|].
  apply Forall_cons in Hall as [Hr _].
  assert (Hin : In r (Np.abs (Np.diff series))) by (rewrite E; left; reflexivity).
  unfold Np.abs in Hin. apply in_map_iff in Hin as (d & <- & _).
  rewrite <- Hr. apply Qabs_nonneg.
Qed.

Lemma uniform_steps_raise_no_range_alarm_witness :
  mr_out_of_control
    (_calculate_moving_range_stats (Np.abs (Np.diff [1; 3; 1; 3; 1]))) = false.
Proof.
  apply (uniform_steps_raise_no_range_alarm [1; 3; 1; 3; 1] 2).
  - simpl. lia.
  - repeat constructor.
Defined.

(** ** Rule 2 on a run of nine *)

Lemma rule2_loop_run_below (m : Q) (l1 l2 : list Q) (above below : nat) :
  Forall (fun x => x <= m) l1 ->
  (below < 9)%nat -> (9 <= below + length l1)%nat ->
  rule2_loop m (l1 ++ l2) above below = true.
Proof.
  intros Hall. revert above below.
  induction Hall as [|x l1 Hx _ IH]; intros above below Hlt Hge;
    [simpl in Hge; lia|].
  cbn [app rule2_loop].
  replace (Py.ltb m x) with false by (symmetry; apply ltb_false; exact Hx).
  change (9 <=? 0)%nat with false. cbn [orb].
  destruct (9 <=? S below)%nat eqn:E; [reflexivity|].
  apply Nat.leb_gt in E. apply IH; simpl in Hge; lia.
Qed.

Lemma rule2_loop_run_above (m : Q) (l1 l2 : list Q) (above below : nat) :
  Forall (fun x => m < x) l1 ->
  (above < 9)%nat -> (9 <= above + length l1)%nat ->
  rule2_loop m (l1 ++ l2) above below = true.
Proof.
  intros Hall. revert above below.
  induction Hall as [|x l1 Hx _ IH]; intros above below Hlt Hge;
    [simpl in Hge; lia|].
  cbn [app rule2_loop].
  replace (Py.ltb m x) with true by (symmetry; apply ltb_true; exact Hx).
  change (9 <=? 0)%nat with false. rewrite orb_false_r.
  destruct (9 <=? S above)%nat eqn:E; [reflexivity|].
  apply Nat.leb_gt in E. apply IH; simpl in Hge; lia.
Qed.

(** Wherever the run starts: the counters that reach it are below nine, or
    the loop has already fired. *)
Lemma rule2_loop_run_anywhere (m : Q) (l0 l1 l2 : list Q) (above below : nat) :
  length l1 = 9%nat ->
  Forall (fun x => m < x) l1 \/ Forall (fun x => x <= m) l1 ->
  (above < 9)%nat -> (below < 9)%nat ->
  rule2_loop m (l0 ++ l1 ++ l2) above below = true.
Proof.
  intros Hlen Hrun. revert above below.
  induction l0 as [|x l0 IH]; intros above below Ha Hb.
  - cbn [app]. destruct Hrun as [Hrun|Hrun].
    + apply rule2_loop_run_above; [exact Hrun | exact Ha | lia].
    + apply rule2_loop_run_below; [exact Hrun | exact Hb | lia].
  - cbn [app rule2_loop].
    destruct (Py.ltb m x).
    + change (9 <=? 0)%nat with false. rewrite orb_false_r.
      destruct (9 <=? S above)%nat eqn:E; [reflexivity|].
      apply Nat.leb_gt in E. apply IH; lia.
    + change (9 <=? 0)%nat with false. cbn [orb].
      destruct (9 <=? S below)%nat eqn:E; [reflexivity|].
      apply Nat.leb_gt in E. apply IH; lia.
Qed.

(** Nine consecutive readings anywhere in the series that are all strictly
    above the mean, or all not above it, raise the SPC alarm. *)
Theorem run_of_nine_raises_spc_alarm `{NpSqrt}
    (before run after : list Q) :
  length run = 9%nat ->
  let data := (before ++ run ++ after)%list in
  Forall (fun x => Np.mean data < x) run
  \/ Forall (fun x => x <= Np.mean data) run ->
  rule2_violation (_statistical_process_control data) = true
  /\ spc_out_of_control (_statistical_process_control data) = true.
Proof.
  intros Hlen data Hrun. unfold _statistical_process_control.
  cbn [rule2_violation spc_out_of_control].
  subst data.
  rewrite (rule2_loop_run_anywhere _ before run after 0 0 Hlen Hrun);
    [|lia|lia].
  split; [reflexivity | apply orb_true_r].
Qed.

Lemma run_of_nine_raises_spc_alarm_witness :
  let data := ([9; 9] ++ [1; 1; 1; 1; 1; 1; 1; 1; 1] ++ [9; 9; 9])%list in
  rule2_violation (@_statistical_process_control sqrt_down_instance data) = true
  /\ spc_out_of_control (@_statistical_process_control sqrt_down_instance data)
     = true.
Proof.
  apply (@run_of_nine_raises_spc_alarm sqrt_down_instance
           [9; 9] [1; 1; 1; 1; 1; 1; 1; 1; 1] [9; 9; 9]).
  - reflexivity.
  - right. repeat (constructor; [vm_compute; discriminate|]). constructor.
Defined.

(** ** The CUSUM chart *)

Lemma min_le_l (a b : Q) : Py.min a b <= a.
Proof.
  unfold Py.min. destruct (Py.ltb b a) eqn:E; [apply ltb_true in E|]; lra.
Qed.

Lemma min_le_r (a b : Q) : Py.min a b <= b.
Proof.
  unfold Py.min. destruct (Py.ltb b a) eqn:E; [|apply ltb_false in E]; lra.
Qed.

Lemma length_cusum_loop (step : Q -> Q -> Q) (prev : Q) (ds : list Q) :
  length (cusum_loop step prev ds) = length ds.
Proof.
  revert prev. induction ds as [|d ds IH]; intros prev; simpl;
    [reflexivity | rewrite IH; reflexivity].
Qed.

Lemma length_cusum_array (step : Q -> Q -> Q) (ds : list Q) :
  length (cusum_array step ds) = length ds.
Proof.
  destruct ds as [|d ds]; simpl; [reflexivity|].
  rewrite length_cusum_loop. reflexivity.
Qed.

Lemma cusum_loop_pos_nonneg (prev : Q) (ds : list Q) :
  Forall (fun s => 0 <= s)
    (cusum_loop (fun prev d => Py.max 0 (prev + d - cusum_k)) prev ds).
Proof.
  revert prev. induction ds as [|d ds IH]; intros prev; simpl; constructor.
  - apply max_ge_l.
  - apply IH.
Qed.

Lemma cusum_loop_neg_nonpos (prev : Q) (ds : list Q) :
  Forall (fun s => s <= 0)
    (cusum_loop (fun prev d => Py.min 0 (prev + d + cusum_k)) prev ds).
Proof.
  revert prev. induction ds as [|d ds IH]; intros prev; simpl; constructor.
  - apply min_le_l.
  - apply IH.
Qed.

(** The two sums keep their sides: the arrays have the length of the data,
    the upper sum is never negative and the lower sum never positive. *)
Theorem cusum_sums_keep_their_sides `{NpSqrt} (data : list Q) :
  let stats := _calculate_cusum data in
  length (cusum_positive stats) = length data
  /\ length (cusum_negative stats) = length data
  /\ Forall (fun s => 0 <= s) (cusum_positive stats)
  /\ Forall (fun s => s <= 0) (cusum_negative stats).
Proof.
  cbv zeta. unfold _calculate_cusum.
  cbn [cusum_positive cusum_negative].
  rewrite !length_cusum_array, !length_map.
  split; [reflexivity|]. split; [reflexivity|].
  destruct data as [|x data]; cbn [map cusum_array]; [split; constructor|].
  split; constructor; try lra.
  - apply cusum_loop_pos_nonneg.
  - apply cusum_loop_neg_nonpos.
Qed.

Lemma cusum_loop_pos_hit (prev : Q) (ds : list Q) :
  0 <= prev ->
  Exists (fun d => cusum_h + cusum_k < d) ds ->
  Np.any (fun s => Py.ltb cusum_h s)
    (cusum_loop (fun prev d => Py.max 0 (prev + d - cusum_k)) prev ds) = true.
Proof.
  intros Hprev Hex. revert prev Hprev.
  induction Hex as [d ds Hd|d ds _ IH]; intros prev Hprev; simpl.
  - replace (Py.ltb cusum_h (Py.max 0 (prev + d - cusum_k))) with true;
      [reflexivity|].
    symmetry. apply ltb_true.
    pose proof (max_ge_r 0 (prev + d - cusum_k)). lra.
  - rewrite IH; [apply orb_true_r | apply max_ge_l].
Qed.

Lemma cusum_loop_neg_hit (prev : Q) (ds : list Q) :
  prev <= 0 ->
  Exists (fun d => d < - (cusum_h + cusum_k)) ds ->
  Np.any (fun s => Py.ltb s (- cusum_h))
    (cusum_loop (fun prev d => Py.min 0 (prev + d + cusum_k)) prev ds) = true.
Proof.
  intros Hprev Hex. revert prev Hprev.
  induction Hex as [d ds Hd|d ds _ IH]; intros prev Hprev; simpl.
  - replace (Py.ltb (Py.min 0 (prev + d + cusum_k)) (- cusum_h)) with true;
      [reflexivity|].
    symmetry. apply ltb_true.
    pose proof (min_le_r 0 (prev + d + cusum_k)). lra.
  - rewrite IH; [apply orb_true_r | apply min_le_l].
Qed.

Lemma Exists_tail_lookup {A} (P : A -> Prop) (l : list A) (i : nat) (x : A) :
  (1 <= i)%nat -> l !! i = Some x -> P x -> Exists P (tail l).
Proof.
  intros Hi Hl Hx. destruct l as [|y l]; [discriminate|].
  destruct i as [|i]; [lia|]. cbn [tail]. simpl in Hl.
  apply Exists_exists. exists x. split; [|exact Hx].
  eapply list_elem_of_lookup_2. exact Hl.
Qed.

(** One sample, the first excepted, that lies more than h + k = 4.5
    floored standard deviations away from the target triggers the alarm,
    whatever the rest of the series does. *)
Theorem single_excursion_triggers_cusum `{NpSqrt}
    (data : list Q) (i : nat) (x : Q) :
  (1 <= i)%nat ->
  data !! i = Some x ->
  4.5 < cusum_deviation data x \/ cusum_deviation data x < - 4.5 ->
  alarm_triggered (_calculate_cusum data) = true.
Proof.
  intros Hi Hx Hfar. unfold _calculate_cusum. cbn [alarm_triggered].
  fold (cusum_target data). fold (cusum_floor data).
  set (deviations := map _ data).
  assert (Htail : tail deviations
                  = map (cusum_deviation data) (tail data)).
  { subst deviations. destruct data; reflexivity. }
  assert (Hcons : exists d0, deviations = d0 :: tail deviations).
  { subst deviations. destruct data as [|y data]; [discriminate|].
    eexists. reflexivity. }
  destruct Hcons as [d0 Hcons]. rewrite Hcons. cbn [cusum_array Np.any existsb].
  change (existsb ?f ?l) with (Np.any f l).
  change (Py.ltb cusum_h 0) with false.
  change (Py.ltb 0 (- cusum_h)) with false. cbn [orb].
  destruct Hfar as [Hup|Hdown].
  - rewrite cusum_loop_pos_hit; [reflexivity | lra |].
    rewrite Htail. apply Exists_map.
    apply (Exists_tail_lookup _ data i x Hi Hx).
    unfold cusum_h, cusum_k. lra.
  - rewrite (cusum_loop_neg_hit 0); [apply orb_true_r | lra |].
    rewrite Htail. apply Exists_map.
    apply (Exists_tail_lookup _ data i x Hi Hx).
    unfold cusum_h, cusum_k. lra.
Qed.

(** Ten readings at 2.0 V followed by one at 2.1 V. *)
Lemma single_excursion_triggers_cusum_witness :
  alarm_triggered
    (@_calculate_cusum sqrt_down_instance
       [2; 2; 2; 2; 2; 2; 2; 2; 2; 2; 2.1]) = true.
Proof.
  apply (@single_excursion_triggers_cusum sqrt_down_instance
           [2; 2; 2; 2; 2; 2; 2; 2; 2; 2; 2.1] 10 2.1).
  - lia.
  - reflexivity.
  - left. vm_compute. reflexivity.
Defined.

(** ** The Kalman filter as a weighted mean *)

Lemma kalman_noise_pos (sensor_type : string) :
  0 < fst (kalman_noise sensor_type) /\ 0 < snd (kalman_noise sensor_type).
Proof.
  unfold kalman_noise.
  destruct (String.eqb sensor_type "electrode"); [split; reflexivity|].
  destruct (String.eqb sensor_type "pH"); split; reflexivity.
Qed.

(** With a non-negative covariance the gain lies strictly between 0 and
    1 and the next covariance is positive again. *)
Lemma kalman_gain_unit (pn mn p : Q) :
  0 < pn -> 0 < mn -> 0 <= p ->
  0 < (p + pn) / (p + pn + mn) < 1
  /\ 0 < (1 - (p + pn) / (p + pn + mn)) * (p + pn).
Proof.
  intros Hpn Hmn Hp.
  assert (Hk : 0 < (p + pn) / (p + pn + mn) < 1).
  { split.
    - apply Qlt_shift_div_l; lra.
    - apply Qlt_shift_div_r; lra. }
  split; [exact Hk|]. apply Qmult_lt_0_compat; lra.
Qed.

Lemma kalman_running_within (pn mn lo hi : Q) (obs : list Q) (x p : Q) :
  0 < pn -> 0 < mn -> 0 <= p -> lo <= x <= hi ->
  within lo hi obs ->
  within lo hi (kalman_running pn mn x p obs).
Proof.
  intros Hpn Hmn Hp Hx Hobs. revert x p Hp Hx.
  induction Hobs as [|z zs Hz _ IH]; intros x p Hp Hx; [constructor|].
  cbn [kalman_running].
  destruct (kalman_gain_unit pn mn p Hpn Hmn Hp) as [Hk Hp'].
  set (k := (p + pn) / (p + pn + mn)) in *.
  assert (Hnew : lo <= x + k * (z - x) <= hi).
  { assert (H1 : 0 <= (1 - k) * (x - lo)) by (apply Qmult_le_0_compat; lra).
    assert (H2 : 0 <= k * (z - lo)) by (apply Qmult_le_0_compat; lra).
    assert (H3 : 0 <= (1 - k) * (hi - x)) by (apply Qmult_le_0_compat; lra).
    assert (H4 : 0 <= k * (hi - z)) by (apply Qmult_le_0_compat; lra).
    split; lra. }
  constructor; [exact Hnew|].
  apply IH; [lra | exact Hnew].
Qed.

(** The filtered series never leaves the range of the input: bounds that
    hold for every input sample hold for every output sample.  In
    particular a constant series is returned as it is. *)
Theorem kalman_output_within_input_range
    (series : list Q) (sensor_type : string) (lo hi : Q) :
  within lo hi series ->
  within lo hi (kalman_filter_enhancement series sensor_type).
Proof.
  intros Hin.
  destruct (Nat.lt_ge_cases (length series) 3) as [Hshort|Hlong].
  - unfold kalman_filter_enhancement.
    replace (length series <? 3)%nat with true
      by (symmetry; apply Nat.ltb_lt; exact Hshort).
    exact Hin.
  - rewrite kalman_filter_as_recursion by exact Hlong.
    destruct (kalman_noise_pos sensor_type) as [Hpn Hmn].
    apply kalman_running_within; try assumption; [lra|].
    destruct series as [|z0 rest]; [simpl in Hlong; lia|].
    apply Forall_cons in Hin as [Hz0 _]. exact Hz0.
Qed.

Lemma kalman_output_within_input_range_witness :
  within 1 3 (kalman_filter_enhancement [1; 3; 2; 3; 1] "pH").
Proof.
  apply (kalman_output_within_input_range [1; 3; 2; 3; 1] "pH" 1 3).
  repeat (constructor; [split; vm_compute; discriminate|]). constructor.
Defined.

Lemma kalman_running_shift (pn mn c : Q) (obs : list Q) (x x' p : Q) :
  x' == x + c ->
  Forall2 Qeq (kalman_running pn mn x' p (shift c obs))
              (shift c (kalman_running pn mn x p obs)).
Proof.
  revert x x' p. induction obs as [|z zs IH]; intros x x' p Hx; [constructor|].
  cbn [shift map kalman_running].
  set (k := (p + pn) / (p + pn + mn)).
  assert (Hnew : x' + k * (z + c - x') == x + k * (z - x) + c)
    by (rewrite Hx; ring).
  constructor; [exact Hnew|].
  apply IH. exact Hnew.
Qed.

Lemma Forall2_Qeq_refl (l : list Q) : Forall2 Qeq l l.
Proof. induction l; constructor; [reflexivity | assumption]. Qed.

(** Shifting every sample by a constant shifts every estimate by the same
    constant: the filter has no preferred level. *)
Theorem kalman_filter_commutes_with_shift
    (series : list Q) (sensor_type : string) (c : Q) :
  Forall2 Qeq
    (kalman_filter_enhancement (shift c series) sensor_type)
    (shift c (kalman_filter_enhancement series sensor_type)).
Proof.
  assert (Hlen : length (shift c series) = length series)
    by (unfold shift; apply length_map).
  destruct (Nat.lt_ge_cases (length series) 3) as [Hshort|Hlong].
  - unfold kalman_filter_enhancement. rewrite Hlen.
    replace (length series <? 3)%nat with true
      by (symmetry; apply Nat.ltb_lt; exact Hshort).
    apply Forall2_Qeq_refl.
  - rewrite !kalman_filter_as_recursion by lia.
    apply kalman_running_shift.
    destruct series as [|z0 rest]; [simpl in Hlong; lia|].
    reflexivity.
Qed.

(** ** Temperature compensation, branch by branch *)

(** From -22 degrees up the conductivity branch cannot fail: its factor
    1 + 0.021 (T - 25) is at least 0.013, and the result times the factor
    gives the reading back. *)
Theorem conductivity_compensation_returns_above_minus_22
    (reading temperature : Q) (electrode_type : option string) :
  - 22 <= temperature ->
  exists w,
    apply_temperature_compensation reading temperature "conductivity"
      electrode_type = Ok w
    /\ 0.013 <= 1 + 0.021 * (temperature - 25)
    /\ w * (1 + 0.021 * (temperature - 25)) == reading.
Proof.
  intros Ht. unfold apply_temperature_compensation.
  change (String.eqb "conductivity" "electrode") with false.
  change (String.eqb "conductivity" "pH") with false.
  change (String.eqb "conductivity" "conductivity") with true.
  cbn [andb]. unfold conductivity_temp_coefficient, reference_temp.
  destruct (Qeq_bool (1 + 0.021 * (temperature - 25.0)) 0) eqn:E.
  - apply Qeq_bool_iff in E. lra.
  - eexists. split; [reflexivity|]. split; [lra|]. field. lra.
Qed.

Lemma conductivity_compensation_returns_above_minus_22_witness :
  exists w,
    apply_temperature_compensation 1.5 30 "conductivity" None = Ok w
    /\ 0.013 <= 1 + 0.021 * (30 - 25)
    /\ w * (1 + 0.021 * (30 - 25)) == 1.5.
Proof.
  apply (conductivity_compensation_returns_above_minus_22 1.5 30 None).
  vm_compute. discriminate.
Defined.

(** The pH branch keeps 2.0 V fixed at every temperature and scales the
    distance to it by the ratio of absolute temperatures,
    (T + 273.15) / 298.15; it never raises. *)
Theorem pH_compensation_scales_about_anchor
    (reading temperature : Q) (electrode_type : option string) :
  exists w,
    apply_temperature_compensation reading temperature "pH" electrode_type
    = Ok w
    /\ w - 2 == (reading - 2) * ((temperature + 273.15) / 298.15)
    /\ (reading == 2 -> w == 2).
Proof.
  unfold apply_temperature_compensation.
  change (String.eqb "pH" "electrode") with false.
  change (String.eqb "pH" "pH") with true. cbn [andb].
  eexists. split; [reflexivity|].
  assert (Hscale : 2.0 + (reading - 2.0) / (- 59.16 / 1000)
                         * (- 59.16 * (temperature + 273.15) / 298.15 / 1000)
                   - 2
                   == (reading - 2) * ((temperature + 273.15) / 298.15))
    by field.
  split; [exact Hscale|].
  intros Hr.
  assert (Hzero : (reading - 2) * ((temperature + 273.15) / 298.15) == 0)
    by (rewrite Hr; unfold Qdiv; ring).
  rewrite Hzero in Hscale.
  set (w := 2.0 + _ * _) in *. lra.
Qed.

Lemma electrode_standards_coefficient (k : string) (s : ElectrodeStandard) :
  electrode_standards !! k = Some s -> temp_coefficient s < 0.
Proof.
  unfold electrode_standards. intros Hk.
  repeat (apply lookup_insert_Some in Hk as [[_ <-]|[_ Hk]];
          [reflexivity|]).
  rewrite lookup_empty in Hk. discriminate.
Qed.

(** For each electrode of the table the correction does not depend on the
    reading, and it never works against the temperature: every
    coefficient of the table is negative, so the result is not below the
    reading from 25 degrees up and not above it from 25 degrees down. *)
Theorem electrode_compensation_direction
    (reading temperature : Q) (electrode : string) :
  electrode ∈ electrodes ->
  exists w shift_by,
    apply_temperature_compensation reading temperature "electrode"
      (Some electrode) = Ok w
    /\ (forall other,
          apply_temperature_compensation other temperature "electrode"
            (Some electrode) = Ok (other - shift_by))
    /\ w == reading - shift_by
    /\ (25 <= temperature -> reading <= w)
    /\ (temperature <= 25 -> w <= reading).
Proof.
  intros Hin.
  assert (Htruthy : Py.truthy (Some electrode) = true).
  { unfold electrodes in Hin.
    repeat (apply elem_of_cons in Hin as [->|Hin]; [reflexivity|]).
    apply elem_of_nil in Hin. contradiction. }
  apply electrode_standards_keys in Hin as [s Hs].
  pose proof (electrode_standards_coefficient _ _ Hs) as Hneg.
  unfold apply_temperature_compensation, Py.getitem.
  rewrite Htruthy. change (String.eqb "electrode" "electrode") with true.
  cbn [andb]. change (default EmptyString (Some electrode)) with electrode.
  rewrite Hs. cbn [Py.bind].
  exists (reading - temp_coefficient s * (temperature - reference_temp)),
         (temp_coefficient s * (temperature - reference_temp)).
  split; [reflexivity|]. split; [reflexivity|]. split; [reflexivity|].
  unfold reference_temp.
  split; intros Ht.
  - assert (0 <= (- temp_coefficient s) * (temperature - 25))
      by (apply Qmult_le_0_compat; lra). lra.
  - assert (0 <= (- temp_coefficient s) * (25 - temperature))
      by (apply Qmult_le_0_compat; lra). lra.
Qed.

Lemma electrode_compensation_direction_witness :
  exists w shift_by,
    apply_temperature_compensation 2 30 "electrode" (Some "Cu") = Ok w
    /\ (forall other,
          apply_temperature_compensation other 30 "electrode" (Some "Cu")
          = Ok (other - shift_by))
    /\ w == 2 - shift_by
    /\ (25 <= 30 -> 2 <= w)
    /\ (30 <= 25 -> w <= 2).
Proof.
  apply (electrode_compensation_direction 2 30 "Cu").
  unfold electrodes. set_solver.
Defined.

(** ** Cross validation reads the listed electrodes only *)

Lemma map_ext_elem_of {A B} (f g : A -> B) (l : list A) :
  (forall x, x ∈ l -> f x = g x) -> map f l = map g l.
Proof.
  induction l as [|x l IH]; intros Heq; [reflexivity|].
  cbn [map]. rewrite (Heq x) by left. rewrite IH; [reflexivity|].
  intros y Hy. apply Heq. right. exact Hy.
Qed.

(** Two non-empty reading sets that give the same voltage, a missing one
    counting as 0, for every electrode the reference profile lists get the
    same result: readings under other keys are ignored, and a missing
    voltage cannot be told from a voltage of 0. *)
Theorem validation_reads_listed_electrodes_only `{NpSqrt}
    (readings1 readings2 : gmap string Q)
    (reference_profile : gmap string (gmap string Q)) (herb : string) :
  readings1 <> ∅ -> readings2 <> ∅ ->
  (forall e, e ∈ listed_electrodes reference_profile ->
             reading_or_zero readings1 e = reading_or_zero readings2 e) ->
  cross_validation_check readings1 reference_profile herb
  = cross_validation_check readings2 reference_profile herb.
Proof.
  intros Hne1 Hne2 Hsame. unfold cross_validation_check.
  rewrite (bool_decide_eq_false_2 _ Hne1), (bool_decide_eq_false_2 _ Hne2).
  rewrite !collect_electrodes_spec.
  fold (response_of reference_profile).
  fold (listed_electrodes reference_profile).
  rewrite (map_ext_elem_of _ _ _ Hsame). reflexivity.
Qed.

Lemma validation_reads_listed_electrodes_only_witness :
  @cross_validation_check sqrt_down_instance
    one_voltage_readings three_electrode_profile "tulsi"
  = @cross_validation_check sqrt_down_instance
      padded_readings three_electrode_profile "tulsi".
Proof.
  apply (@validation_reads_listed_electrodes_only sqrt_down_instance
           one_voltage_readings padded_readings three_electrode_profile
           "tulsi").
  - vm_compute. discriminate.
  - vm_compute. discriminate.
  - intros e He.
    change (listed_electrodes three_electrode_profile)
      with ["SS"; "Cu"; "Zn"] in He.
    repeat (apply elem_of_cons in He as [->|He]; [reflexivity|]).
    apply elem_of_nil in He. contradiction.
Defined.

(** ** The recommendation of a full analysis *)

(** The recommendation follows the number of indicators that fired: fewer
    than two, keep monitoring; exactly two, monitor more often; three or
    four, calibrate, at once when the hourly rate exceeds 0.01 in
    magnitude and within the day otherwise. *)
Theorem recommendation_follows_indicator_count `{NpSqrt}
    (series : list Q) (sensor_type : string) (electrode_type : option string)
    (threshold : Q) :
  (10 <= length series)%nat ->
  select_drift_threshold sensor_type electrode_type = Ok threshold ->
  exists r,
    detect_sensor_drift series sensor_type electrode_type = Ok (DriftAnalysis r)
    /\ ((true_indicators r < 2)%nat ->
        rec_action (recommendation r) = monitor)
    /\ (true_indicators r = 2%nat ->
        rec_action (recommendation r) = increase_monitoring)
    /\ ((3 <= true_indicators r)%nat ->
        rec_action (recommendation r)
        = if Py.ltb 0.01 (Qabs (drift_rate_per_hour r))
          then immediate_calibration else schedule_calibration).
Proof.
  intros Hlen Hthr. unfold detect_sensor_drift.
  replace (length series <? 10)%nat with false
    by (symmetry; apply Nat.ltb_ge; exact Hlen).
  rewrite Hthr. cbn [Py.bind].
  eexists. split; [reflexivity|].
  cbn [recommendation individual_indicators true_indicators
       drift_rate_per_hour].
  unfold _generate_drift_recommendation.
  set (rate := if (1 <? length series)%nat then _ else 0).
  set (fast := Py.ltb 0.01 (Qabs rate)).
  set (b1 := Py.ltb threshold _). set (b2 := alarm_triggered _).
  set (b3 := mr_out_of_control _). set (b4 := spc_out_of_control _).
  clearbody b1 b2 b3 b4 fast.
  destruct b1, b2, b3, b4, fast;
    (split; [|split]); intros Hcount;
    first [ vm_compute; reflexivity
          | exfalso; vm_compute in Hcount; lia ].
Qed.

Lemma recommendation_follows_indicator_count_witness :
  exists r,
    @detect_sensor_drift sqrt_down_instance (ramp 2 0.001 20) "electrode"
      (Some "Pt")
    = Ok (DriftAnalysis r)
    /\ ((true_indicators r < 2)%nat ->
        rec_action (recommendation r) = monitor)
    /\ (true_indicators r = 2%nat ->
        rec_action (recommendation r) = increase_monitoring)
    /\ ((3 <= true_indicators r)%nat ->
        rec_action (recommendation r)
        = if Py.ltb 0.01 (Qabs (drift_rate_per_hour r))
          then immediate_calibration else schedule_calibration).
Proof.
  apply (@recommendation_follows_indicator_count sqrt_down_instance
           (ramp 2 0.001 20) "electrode" (Some "Pt") (0.003 / 30)).
  - rewrite length_ramp. lia.
  - reflexivity.
Defined.

(** ** Cross validation on readings that equal the reference *)

Lemma matching_readings_collect (response readings : gmap string Q)
    (names : list string) :
  (forall e v, e ∈ names -> response !! e = Some v ->
               reading_or_zero readings e = v) ->
  map (reading_or_zero readings)
      (filter (fun e => is_Some (response !! e)) names)
  = omap (fun e => response !! e) names.
Proof.
  induction names as [|e names IH]; intros Hmatch; [reflexivity|].
  assert (Hrest : forall e' v, e' ∈ names -> response !! e' = Some v ->
                               reading_or_zero readings e' = v).
  { intros e' v Hin. apply Hmatch. right. exact Hin. }
  rewrite filter_cons. cbn [omap list_omap].
  destruct (response !! e) as [v|] eqn:He.
  - rewrite decide_True by (eexists; reflexivity).
    cbn [map]. rewrite (Hmatch e v) by (left || exact He).
    rewrite IH by exact Hrest. reflexivity.
  - rewrite decide_False by (intros [? [=]]). apply IH. exact Hrest.
Qed.

Lemma Qeq_bool_false (x y : Q) : ~ x == y -> Qeq_bool x y = false.
Proof.
  intros Hne. destruct (Qeq_bool x y) eqn:E; [|reflexivity].
  apply Qeq_bool_iff in E. contradiction.
Qed.

Lemma zip_with_diag {A B} (f : A -> A -> B) (l : list A) :
  zip_with f l l = map (fun a => f a a) l.
Proof. induction l as [|a l IH]; [reflexivity|]. simpl. rewrite IH. reflexivity. Qed.

Lemma np_sum_nonneg (l : list Q) :
  Forall (fun t => 0 <= t) l -> 0 <= Np.sum l.
Proof.
  induction 1 as [|t l Ht _ IH]; cbn [Np.sum]; lra.
Qed.

Lemma sum_zero_all_zero (l : list Q) :
  Forall (fun t => 0 <= t) l -> Np.sum l == 0 -> Forall (fun t => t == 0) l.
Proof.
  induction 1 as [|t l Ht Hl IH]; intros Hsum; [constructor|].
  cbn [Np.sum] in Hsum. pose proof (np_sum_nonneg l Hl) as Hs.
  constructor; [lra|]. apply IH. lra.
Qed.

Lemma fold_min_all_eq (xs : list Q) (x m : Q) :
  x == m -> Forall (fun t => t == m) xs -> fold_left Py.min xs x == m.
Proof.
  revert x. induction xs as [|y ys IH]; intros x Hx Hall; [exact Hx|].
  apply Forall_cons in Hall as [Hy Hall]. cbn [fold_left].
  apply IH; [|exact Hall].
  unfold Py.min. destruct (Py.ltb y x); assumption.
Qed.

Lemma fold_max_all_eq (xs : list Q) (x m : Q) :
  x == m -> Forall (fun t => t == m) xs -> fold_left Py.max xs x == m.
Proof.
  revert x. induction xs as [|y ys IH]; intros x Hx Hall; [exact Hx|].
  apply Forall_cons in Hall as [Hy Hall]. cbn [fold_left].
  apply IH; [|exact Hall].
  unfold Py.max. destruct (Py.ltb x y); assumption.
Qed.

Lemma square_zero (t : Q) : t * t == 0 -> t == 0.
Proof.
  intros Ht. destruct (Qeq_dec t 0) as [|Hne]; [assumption|].
  apply Qmult_integral in Ht. destruct Ht; assumption.
Qed.

(** Values that are not all the same have a positive sample variance. *)
Lemma spread_has_positive_variance (x : list Q) :
  Np.amin x < Np.amax x -> 0 < np_cov x x.
Proof.
  intros Hspread. unfold np_cov. rewrite zip_with_diag.
  set (m := Np.mean x).
  set (squares := map (fun a => (a - m) * (a - m)) x).
  assert (Hnonneg : Forall (fun t => 0 <= t) squares).
  { subst squares. apply Forall_map, Forall_forall. intros a _. cbv beta.
    destruct (Qlt_le_dec (a - m) 0).
    - assert (E : (a - m) * (a - m) == (m - a) * (m - a)) by ring.
      rewrite E. apply Qmult_le_0_compat; lra.
    - apply Qmult_le_0_compat; lra. }
  assert (Hlen : (2 <= length x)%nat).
  { destruct x as [|a [|b l]]; simpl in Hspread |- *; try lra; lia. }
  assert (Hpos : 0 < Np.sum squares).
  { pose proof (np_sum_nonneg _ Hnonneg) as Hs.
    destruct (Qeq_dec (Np.sum squares) 0) as [Hzero|Hne]; [|lra].
    exfalso. apply (sum_zero_all_zero _ Hnonneg) in Hzero.
    assert (Hall : Forall (fun a => a == m) x).
    { subst squares. apply Forall_map in Hzero.
      eapply Forall_impl; [exact Hzero|]. intros a Ha. cbv beta in Ha.
      apply square_zero in Ha. lra. }
    destruct x as [|a l]; [simpl in Hlen; lia|].
    apply Forall_cons in Hall as [Ha Hl]. cbn [Np.amin Np.amax] in Hspread.
    pose proof (fold_min_all_eq l a m Ha Hl).
    pose proof (fold_max_all_eq l a m Ha Hl). lra. }
  assert (Hn : 0 < Py.of_nat (length x - 1)) by (apply of_nat_pos; lia).
  apply Qmult_lt_0_compat; [exact Hpos|].
  apply Qlt_shift_div_l; [exact Hn | lra].
Qed.

Lemma relative_errors_of_match (x : list Q) :
  Forall (fun v => ~ v == 0) x ->
  exists s, F.sum (zip_with (fun a e =>
                     F.mul (F.abs (F.div (Fin (a - e)) (Fin e))) (Fin 100))
                   x x) = Fin s
            /\ s == 0.
Proof.
  induction 1 as [|v l Hv _ (s & Hs & Hs0)].
  - exists 0. split; reflexivity.
  - cbn [zip_with F.sum]. rewrite Hs. cbn [F.div].
    replace (Qeq_bool v 0) with false
      by (symmetry; apply Qeq_bool_false; exact Hv).
    cbn [F.abs F.mul F.add]. eexists. split; [reflexivity|].
    assert (E : (v - v) / v == 0) by (unfold Qdiv; ring).
    rewrite Hs0, E. change (Qabs 0) with 0. ring.
Qed.

(** Readings that equal the expected responses, none of them zero and not
    all of them the same, score at least 70: the RMSE and relative-error
    terms are at their maxima, 30 and 40, for any square root that sends
    0 to 0.  The correlation term reaches its 30, the score 100 and the
    status excellent, where the square root of the variance of the
    expected values is exact. *)
Theorem exact_readings_score_at_least_seventy `{NpSqrt}
    (current_readings : gmap string Q)
    (reference_profile : gmap string (gmap string Q)) (herb : string) :
  (forall x, x == 0 -> np_sqrt x == 0) ->
  current_readings <> ∅ ->
  (3 <= length (expected_responses reference_profile))%nat ->
  readings_match current_readings reference_profile ->
  Forall (fun v => ~ v == 0) (expected_responses reference_profile) ->
  Np.amin (expected_responses reference_profile)
  < Np.amax (expected_responses reference_profile) ->
  let result :=
    cross_validation_check current_readings reference_profile herb in
  let variance :=
    np_cov (expected_responses reference_profile)
           (expected_responses reference_profile) in
  exists q,
    validation_score result = Fin q
    /\ 70 <= q <= 100
    /\ (status result = good_match \/ status result = excellent_match)
    /\ (np_sqrt variance * np_sqrt variance == variance ->
        q == 100 /\ status result = excellent_match).
Proof.
  intros Hsqrt Hcr Hlen Hmatch Hnz Hspread. cbv zeta.
  unfold cross_validation_check.
  assert (Hrp : reference_profile <> ∅).
  { intros ->. unfold expected_responses, response_of in Hlen.
    rewrite lookup_empty in Hlen. cbn [default] in Hlen.
    vm_compute in Hlen. lia. }
  rewrite (bool_decide_eq_false_2 _ Hrp), (bool_decide_eq_false_2 _ Hcr).
  cbn [orb]. rewrite collect_electrodes_spec.
  fold (response_of reference_profile).
  rewrite (matching_readings_collect _ _ _ Hmatch).
  fold (expected_responses reference_profile).
  set (x := expected_responses reference_profile) in *.
  replace (length x <? 3)%nat with false
    by (symmetry; apply Nat.ltb_ge; exact Hlen).
  cbn [validation_score status].
  (* the RMSE term *)
  set (rmse := np_sqrt _).
  assert (Hrmse : rmse == 0).
  { subst rmse. apply Hsqrt. unfold Np.mean.
    rewrite sum_all_zero; [unfold Qdiv; ring|].
    rewrite zip_with_diag. apply Forall_map, Forall_forall.
    intros a _. cbv beta. ring. }
  (* the relative-error term *)
  destruct (relative_errors_of_match x Hnz) as (s & Hs & Hs0).
  unfold F.mean. rewrite Hs.
  assert (Hn : 0 < Py.of_nat (length (zip_with (fun a e =>
                     F.mul (F.abs (F.div (Fin (a - e)) (Fin e))) (Fin 100))
                   x x))).
  { apply of_nat_pos. rewrite length_zip_with. lia. }
  set (n := Py.of_nat (length _)) in *.
  cbn [F.div].
  replace (Qeq_bool (Np.amax x - Np.amin x) 0) with false
    by (symmetry; apply Qeq_bool_false; lra).
  replace (Qeq_bool n 0) with false
    by (symmetry; apply Qeq_bool_false; lra).
  cbn [F.div]. change (Qeq_bool 100 0) with false. cbv iota.
  (* the correlation term *)
  destruct (max_zero_unit _ (corrcoef_unit x x)) as (c & Hc & Hc01).
  rewrite Hc. cbn [F.sub F.neg F.add].
  set (r := rmse / (Np.amax x - Np.amin x)).
  set (e := s / n / 100).
  assert (Hr : r == 0) by (subst r; rewrite Hrmse; unfold Qdiv; ring).
  assert (He : e == 0) by (subst e; rewrite Hs0; unfold Qdiv; ring).
  unfold F.max. cbn [F.ltb].
  replace (Py.ltb 0 (1 + - r)) with true by (symmetry; apply ltb_true; lra).
  replace (Py.ltb 0 (1 + - e)) with true by (symmetry; apply ltb_true; lra).
  cbn [F.mul F.add].
  set (q := c * 30 + (1 + - r) * 30 + (1 + - e) * 40).
  assert (Hq : q == 30 * c + 70) by (subst q; rewrite Hr, He; ring).
  exists q. split; [reflexivity|]. split; [lra|].
  unfold score_status. cbn [F.leb].
  split.
  - destruct (Py.leb 80 q); [right; reflexivity|].
    replace (Py.leb 60 q) with true by (symmetry; apply leb_true; lra).
    left. reflexivity.
  - intros Hexact.
    pose proof (spread_has_positive_variance x Hspread) as Hvar.
    set (v := np_cov x x) in *. set (sd := np_sqrt v) in *.
    assert (Hsd : ~ sd == 0).
    { intros Hz. rewrite Hz in Hexact. lra. }
    assert (Hc1 : c == 1).
    { revert Hc. unfold np_corrcoef. fold v. fold sd. cbn [F.div].
      replace (Qeq_bool sd 0) with false
        by (symmetry; apply Qeq_bool_false; exact Hsd).
      cbn [F.div].
      replace (Qeq_bool sd 0) with false
        by (symmetry; apply Qeq_bool_false; exact Hsd).
      cbn [F.clip].
      assert (Hone : v / sd / sd == 1).
      { rewrite <- Hexact. field. exact Hsd. }
      assert (Hclip : Py.min (Py.max (v / sd / sd) (- 1)) 1 == 1).
      { unfold Py.min, Py.max.
        destruct (Py.ltb (v / sd / sd) (- 1)) eqn:E1;
          [apply ltb_true in E1; lra|].
        destruct (Py.ltb 1 (v / sd / sd)); [reflexivity | exact Hone]. }
      unfold F.max. cbn [F.ltb].
      replace (Py.ltb 0 (Py.min (Py.max (v / sd / sd) (- 1)) 1)) with true
        by (symmetry; apply ltb_true; lra).
      intros [= <-]. exact Hclip. }
    split; [lra|].
    replace (Py.leb 80 q) with true by (symmetry; apply leb_true; lra).
    reflexivity.
Qed.

Lemma sqrt_down_zero (x : Q) : x == 0 -> sqrt_down x == 0.
Proof.
  intros Hx. unfold sqrt_down.
  replace (Qle_bool x 0) with true; [reflexivity|].
  symmetry. apply Qle_bool_iff. lra.
Qed.

Lemma exact_readings_score_at_least_seventy_witness :
  let result :=
    @cross_validation_check sqrt_down_instance exact_readings
      three_electrode_profile "tulsi" in
  let variance :=
    np_cov (expected_responses three_electrode_profile)
           (expected_responses three_electrode_profile) in
  exists q,
    validation_score result = Fin q
    /\ 70 <= q <= 100
    /\ (status result = good_match \/ status result = excellent_match)
    /\ (sqrt_down variance * sqrt_down variance == variance ->
        q == 100 /\ status result = excellent_match).
Proof.
  apply (@exact_readings_score_at_least_seventy sqrt_down_instance
           exact_readings three_electrode_profile "tulsi").
  - exact sqrt_down_zero.
  - vm_compute. discriminate.
  - vm_compute. lia.
  - intros e v _ He. unfold response_of, three_electrode_profile in He.
    rewrite lookup_singleton, decide_True in He by reflexivity.
    cbn [default] in He. unfold id in He.
    repeat (apply lookup_insert_Some in He as [[<- <-]|[_ He]];
            [vm_compute; reflexivity|]).
    rewrite lookup_empty in He. discriminate.
  - repeat (constructor; [vm_compute; discriminate|]). constructor.
  - vm_compute. reflexivity.
Defined.
